(** * ikconfig: byte search, compression dispatch and configuration lookup

    A shallow embedding of [pkg/ikconfig] (the byte search [SearchBytes] and
    [ikconfig.go]).  Go functions become Rocq functions over an explicit
    file-system state; a Go call that can end in a run-time panic returns
    in the type [go], which keeps the panic apart from the [(value, error)]
    pair the function returns otherwise. *)

From Stdlib Require Import ZArith Lia.
From Stdlib.Strings Require Import Byte Ascii.
From stdpp Require Import base option list strings gmap.

Local Open Scope string_scope.

(** ** Run-time outcomes and errors *)

(** A byte slice, [[]byte]. *)
Abbreviation bytes := (list Byte.byte).

#[global] Instance byte_eq_decision : EqDecision Byte.byte := Byte.byte_eq_dec.

(** The run-time panics the modelled code can raise. *)
Inductive panic : Type :=
  | IndexOutOfRange (index len : Z)       (* s[index] with len(s) = len *)
  | SliceOutOfRange (low len : Z).        (* s[low:] with len(s) = len *)

(** The outcome of a Go call: it returns, or the goroutine panics. *)
Inductive go (A : Type) : Type :=
  | Ret (a : A)
  | Panic (p : panic).
Arguments Ret {A} a.
Arguments Panic {A} p.

(** Sequencing: a panic ends the call. *)
#[global] Instance go_bind : MBind go := fun A B (f : A -> go B) (m : go A) =>
  match m with
  | Ret a => f a
  | Panic p => Panic p
  end.

(** Go's [int] enumeration of compression formats (declared with [iota]). *)
Abbreviation KernelCompressionType := Z.

(** The [error] values the package builds or passes on. *)
Inductive error : Type :=
  | PathError (op path : string)                    (* from package os *)
  | StreamError (msg : string)                      (* from a decoder *)
  | Wrap (prefix : string) (inner : error)          (* fmt.Errorf("prefix: %w", inner) *)
  | MagicNotFoundErr (msg : string) (magic : bytes) (* &MagicNotFoundErr{msg, magic} *)
  | KeyNotFound (key : string)                      (* fmt.Errorf("key %q not found", key) *)
  | UnsupportedCompression (k : KernelCompressionType).
                        (* fmt.Errorf("unknown/unsupported compression type: %v", k) *)

(** Indexing [s[i]] with Go's bounds check. *)
Definition index (s : bytes) (i : nat) : go Byte.byte :=
  match s !! i with
  | Some x => Ret x
  | None => Panic (IndexOutOfRange (Z.of_nat i) (Z.of_nat (length s)))
  end.

(** Slicing [s[low:]] with Go's bounds check. *)
Definition slice_from (s : bytes) (low : nat) : go bytes :=
  if decide (low <= length s) then Ret (drop low s)
  else Panic (SliceOutOfRange (Z.of_nat low) (Z.of_nat (length s))).

(** ** The file system *)

Record OS : Type := mkOS {
  files : gmap string bytes;          (* regular files and their contents *)
  mkdir_temp : string + error;        (* what os.MkdirTemp returns *)
  create_err : string -> option error (* paths where os.Create fails *)
}.

Definition set_files (w : OS) (fs : gmap string bytes) : OS :=
  mkOS fs (mkdir_temp w) (create_err w).

(** [os.ReadFile]. *)
Definition os_ReadFile (w : OS) (file : string) : bytes * option error :=
  match files w !! file with
  | Some dat => (dat, None)
  | None => ([], Some (PathError "open" file))
  end.

(** ** The byte search *)

(** The [Error] method of [MagicNotFoundErr]:
    [fmt.Sprintf("magic string %v not found", e.magic)].
    [%v] prints a byte slice as its decimal values between brackets. *)
Fixpoint digits (fuel : nat) (n : N) (acc : string) : string :=
  match fuel with
  | O => acc
  | S fuel' =>
      let acc' := String (Ascii.ascii_of_N (48 + n mod 10)) acc in
      if (n / 10 =? 0)%N then acc' else digits fuel' (n / 10)%N acc'
  end.

Definition fmt_byte (x : Byte.byte) : string := digits 3 (Byte.to_N x) "".

Fixpoint fmt_join (l : bytes) : string :=
  match l with
  | [] => ""
  | [x] => fmt_byte x
  | x :: l' => fmt_byte x ++ " " ++ fmt_join l'
  end.

Definition fmt_bytes (l : bytes) : string := "[" ++ fmt_join l ++ "]".

Definition MagicNotFoundErr_Error (magic : bytes) : string :=
  "magic string " ++ fmt_bytes magic ++ " not found".

(** The inner loop of [SearchBytes],
    [for j := 1; j < len(b); j++ { if dat[i+j] != b[j] { found = false; break } }],
    entered with [j] and [n = len(b) - j] iterations left; it returns [found]. *)
Fixpoint compare_rest (dat b : bytes) (i j n : nat) : go bool :=
  match n with
  | O => Ret true
  | S n' =>
      x ← index dat (i + j);
      y ← index b j;
      if decide (x = y) then compare_rest dat b i (S j) n' else Ret false
  end.

(** The outer loop, [for i := 0; i < len(dat); i++ { ... }], entered with [i]
    and [n = len(dat) - i] iterations left. *)
Fixpoint scan (dat b : bytes) (i n : nat) : go (nat * option error) :=
  match n with
  | O => Ret (0, Some (MagicNotFoundErr "magic string not found" b))
  | S n' =>
      x ← index dat i;
      y ← index b 0;
      if decide (x = y) then
        found ← compare_rest dat b i 1 (length b - 1);
        if found : bool then Ret (i, None) else scan dat b (S i) n'
      else scan dat b (S i) n'
  end.

(** The search over the bytes already read: the body of [SearchBytes] after
    [os.ReadFile] has succeeded. *)
Definition search (dat b : bytes) : go (nat * option error) :=
  scan dat b 0 (length dat).

(** [SearchBytes(file, b)]. *)
Definition SearchBytes (w : OS) (file : string) (b : bytes) : go (nat * option error) :=
  let '(dat, err) := os_ReadFile w file in
  match err with
  | Some e => Ret (0, Some (Wrap "error reading file" e))
  | None => search dat b
  end.

(** ** ikconfig.go *)

(** ['I', 'K', 'C', 'F', 'G']. *)
Definition KERNEL_CONFIG_MAGIC : bytes := [x49; x4b; x43; x46; x47].

(** [type KernelConfigMap map[string]string]. *)
Abbreviation KernelConfigMap := (gmap string string).

(** [Get] has a pointer receiver: next to the two results, the map as it is
    after the call is returned. *)
Definition Get (k : KernelConfigMap) (key : string)
  : KernelConfigMap * (string * option error) :=
  match k !! key with
  | Some val => (k, (val, None))
  | None => (k, ("", Some (KeyNotFound key)))
  end.

Definition KERNEL_COMPRESSION_TYPE_GZIP : KernelCompressionType := 0.
Definition KERNEL_COMPRESSION_TYPE_BZIP2 : KernelCompressionType := 1.
Definition KERNEL_COMPRESSION_TYPE_LZMA : KernelCompressionType := 2.
Definition KERNEL_COMPRESSION_TYPE_XZ : KernelCompressionType := 3.
Definition KERNEL_COMPRESSION_TYPE_LZO : KernelCompressionType := 4.
Definition KERNEL_COMPRESSION_TYPE_LZ4 : KernelCompressionType := 5.
Definition KERNEL_COMPRESSION_TYPE_ZSTD : KernelCompressionType := 6.
Definition KERNEL_COMPRESSION_TYPE_NONE : KernelCompressionType := 7.
Definition KERNEL_COMPRESSION_TYPE_UNKNOWN : KernelCompressionType := 8.

(** The array literal of [Magic], in the order it is written; the source
    comments its three entries GZIP, XZ and bunzip2. *)
Definition magic_gzip_entry : bytes := [x1f; x8b].
Definition magic_xz_entry : bytes := [x5c; x33; x37; x35; x37; x7a; x58; x59; x00].
Definition magic_bunzip2_entry : bytes := [x42; x5a; x68].

Definition magic_table : list bytes :=
  [magic_gzip_entry; magic_xz_entry; magic_bunzip2_entry].

(** [Magic]: the array literal indexed by the receiver, [[...][]byte{...}[k]]. *)
Definition Magic (k : KernelCompressionType) : go bytes :=
  match (if decide (0 <= k)%Z then magic_table !! Z.to_nat k else None) with
  | Some m => Ret m
  | None => Panic (IndexOutOfRange k (Z.of_nat (length magic_table)))
  end.

Record KernelConfig : Type := mkKernelConfig {
  path : string;
  pathDecompressed : string;
  compressionType : KernelCompressionType
}.

Definition findKernelConfigMagic (w : OS) (k : KernelConfig) : go (nat * option error) :=
  SearchBytes w (path k) KERNEL_CONFIG_MAGIC.

Definition findCompressionMagic (w : OS) (k : KernelConfig) : go (nat * option error) :=
  m ← Magic (compressionType k);
  SearchBytes w (path k) m.

(** What a decoder's [Read] calls deliver: some bytes, then [io.EOF]
    ([None]) or a failure. *)
Record reader : Type := mkReader {
  delivered : bytes;
  failure : option error
}.

(** The decoders of compress/gzip, compress/bzip2, ulikunitz/xz and
    klauspost/compress/zstd, as functions of the bytes of their source. *)
Class Codecs : Type := {
  gzip_NewReader : bytes -> reader + error;
  bzip2_NewReader : bytes -> reader;
  xz_NewReader : bytes -> reader + error;
  zstd_NewReader : bytes -> reader + error
}.

(** [os.Create]: the file exists and is empty afterwards. *)
Definition os_Create (w : OS) (name : string) : OS * option error :=
  match create_err w name with
  | Some e => (w, Some e)
  | None => (set_files w (<[name := []]> (files w)), None)
  end.

(** [os.Open], with the bytes a reader of the handle gets.  A file that is
    present is taken to be readable. *)
Definition os_Open (w : OS) (name : string) : bytes * option error :=
  match files w !! name with
  | Some dat => (dat, None)
  | None => ([], Some (PathError "open" name))
  end.

(** [os.Link]: it fails when [newname] exists already. *)
Definition os_Link (w : OS) (oldname newname : string) : OS * option error :=
  match files w !! oldname, files w !! newname with
  | Some dat, None => (set_files w (<[newname := dat]> (files w)), None)
  | _, _ => (w, Some (PathError "link" newname))
  end.

(** [io.Copy(dst, r)] into the file open for writing at [dst]: what the
    reader delivers is appended, and the reader's failure is returned.
    Writes to [dst] are taken to succeed. *)
Definition io_Copy (w : OS) (dst : string) (r : reader) : OS * option error :=
  (set_files w (<[dst := (default [] (files w !! dst) ++ delivered r)%list]> (files w)),
   failure r).

(** The [switch] of [decompress]; a Go [case] with an empty body does
    nothing and leaves the [switch].  In the xz case the copy of the open
    source into the buffer is taken to succeed. *)
Definition decompress_switch `{Codecs} (w : OS) (k : KernelConfig) (kernel : bytes)
  : OS * option error :=
  let decomp := pathDecompressed k in
  let t := compressionType k in
  if decide (t = KERNEL_COMPRESSION_TYPE_NONE) then
    (fst (os_Link w (path k) decomp), None)
  else if decide (t = KERNEL_COMPRESSION_TYPE_UNKNOWN) then (w, None)
  else if decide (t = KERNEL_COMPRESSION_TYPE_GZIP) then
    match gzip_NewReader kernel with
    | inr e => (w, Some (Wrap "error creating gzip reader" e))
    | inl gzipReader =>
        let '(w', err) := io_Copy w decomp gzipReader in
        (w', Wrap "error decompressing gzip" <$> err)
    end
  else if decide (t = KERNEL_COMPRESSION_TYPE_BZIP2) then
    let '(w', err) := io_Copy w decomp (bzip2_NewReader kernel) in
    (w', Wrap "error decompressing bzip2" <$> err)
  else if decide (t = KERNEL_COMPRESSION_TYPE_LZMA) then (w, None)
  else if decide (t = KERNEL_COMPRESSION_TYPE_XZ) then
    match xz_NewReader kernel with
    | inr e => (w, Some (Wrap "error creating xz reader" e))
    | inl xzReader =>
        let '(w', err) := io_Copy w decomp xzReader in
        (w', Wrap "error decompressing xz" <$> err)
    end
  else if decide (t = KERNEL_COMPRESSION_TYPE_ZSTD) then
    match zstd_NewReader kernel with
    | inr e => (w, Some (Wrap "error creating zstd reader" e))
    | inl zstdReader =>
        let '(w', err) := io_Copy w decomp zstdReader in
        (w', Wrap "error decompressing zstd" <$> err)
    end
  else if decide (t = KERNEL_COMPRESSION_TYPE_LZO) then (w, None)
  else if decide (t = KERNEL_COMPRESSION_TYPE_LZ4) then (w, None)
  else (w, Some (UnsupportedCompression t)).

(** [decompress]: the file system and the receiver after the call, and the
    returned error. *)
Definition decompress `{Codecs} (w : OS) (k : KernelConfig)
  : OS * KernelConfig * option error :=
  match mkdir_temp w with
  | inr e => (w, k, Some (Wrap "error creating temporary directory" e))
  | inl tmpdir =>
      let k := mkKernelConfig (path k) (tmpdir ++ "/vmlinux") (compressionType k) in
      let '(w, err) := os_Create w (pathDecompressed k) in
      match err with
      | Some e => (w, k, Some (Wrap "error opening decompressed file" e))
      | None =>
          let '(kernel, err) := os_Open w (path k) in
          match err with
          | Some e => (w, k, Some (Wrap "error opening kernel file" e))
          | None =>
              let '(w, err) := decompress_switch w k kernel in
              (w, k, err)
          end
      end
  end.



(** [ParseKernelConfig].  The file [config] is opened read-only, so the
    [io.Copy] into it, whose results are dropped, changes no file. *)
Definition ParseKernelConfig `{Codecs} (w : OS) (k : KernelConfig)
  : go (OS * KernelConfig * (option KernelConfigMap * option error)) :=
  let '(w, k, err) := decompress w k in
  match err with
  | Some e => Ret (w, k, (None, Some (Wrap "error decompressing kernel config" e)))
  | None =>
      '(magicOffset, err) ← findKernelConfigMagic w k;
      match err with
      | Some e =>
          Ret (w, k, (None, Some (Wrap "error finding magic string in kernel config" e)))
      | None =>
          let '(configDecompressed, err) := os_ReadFile w (pathDecompressed k) in
          match err with
          | Some e => Ret (w, k, (None, Some (Wrap "error reading kernel config" e)))
          | None =>
              configBuf ← slice_from configDecompressed (magicOffset + 8);
              let '(_, err) := os_Open w "config" in
              match err with
              | Some e => Ret (w, k, (None, Some (Wrap "error opening config file" e)))
              | None =>
                  match gzip_NewReader configBuf with
                  | inr e => Ret (w, k, (None, Some (Wrap "error creating gzip reader" e)))
                  | inl gzipReader => Ret (w, k, (Some (∅ : KernelConfigMap), None))
                  end
              end
          end
      end
  end.

(** ** Vocabulary of the properties *)

(** [b] occurs in [dat] at [i]: [dat[i:i+len(b)] == b]. *)
Definition occurs_at (dat b : bytes) (i : nat) : Prop :=
  take (length b) (drop i dat) = b.

#[global] Instance occurs_at_dec dat b i : Decision (occurs_at dat b i).
Proof. unfold occurs_at. apply _. Defined.

(** [i] is the lowest index at which [b] occurs in [dat]. *)
Definition first_occurrence (dat b : bytes) (i : nat) : Prop :=
  occurs_at dat b i /\ forall i', i' < i -> ~ occurs_at dat b i'.

(** The bytes of [dat] from [i] on are a proper prefix of [b]: the candidate
    [i] agrees with [b] as far as [dat] goes, and [b] goes on past its end. *)
Definition overhang (dat b : bytes) (i : nat) : Prop :=
  length dat < i + length b /\
  forall j, j < length dat - i -> dat !! (i + j) = b !! j.

(** The characters ['0'] to ['9'], and the strings made of them. *)
Definition is_digit (a : Ascii.ascii) : bool :=
  (48 <=? Ascii.N_of_ascii a)%N && (Ascii.N_of_ascii a <=? 57)%N.

Fixpoint all_digits (s : string) : bool :=
  match s with
  | EmptyString => true
  | String a s' => is_digit a && all_digits s'
  end.

(** The value of a string of decimal digits, after the digits read so far. *)
Fixpoint parse_dec (s : string) (acc : N) : N :=
  match s with
  | EmptyString => acc
  | String a s' => parse_dec s' (10 * acc + (Ascii.N_of_ascii a - 48))%N
  end.

(** ** Example data

    A configuration text, its gzip stream, and two kernel images around it:
    [kernel_gz] is the gzip stream of [plain_image] and holds no byte 'I';
    [kernel_stored] is the gzip stream, in stored blocks, of
    [plain_padded], so that the marker is readable at offset 15 of the
    stream itself. *)
Definition config_text : bytes :=
  [x43; x4f; x4e; x46; x49; x47; x5f; x53; x4d; x50; x3d; x79; x0a].

Definition config_gz : bytes :=
  [x1f; x8b; x08; x00; x00; x00; x00; x00; x02; x03; x73; xf6; xf7; x73; xf3;
   x74; x8f; x0f; xf6; x0d; xb0; xad; xe4; x02; x00; xff; x85; x45; x0d; x0d;
   x00; x00; x00].

Definition IKCFG_ST : bytes := [x49; x4b; x43; x46; x47; x5f; x53; x54].
Definition IKCFG_ED : bytes := [x49; x4b; x43; x46; x47; x5f; x45; x44].

Definition plain_image : bytes := (IKCFG_ST ++ config_gz ++ IKCFG_ED)%list.

Definition kernel_gz : bytes :=
  [x1f; x8b; x08; x00; x00; x00; x00; x00; x02; x03; xf3; xf4; x76; x76; x73;
   x8f; x0f; x0e; x91; xef; xe6; x60; x00; x01; x26; xe6; xe2; x6f; xdf; x8b;
   x3f; x97; xf4; xf3; x7f; xe3; xdd; xb0; xf6; x09; x13; xc3; xff; x56; x57;
   x5e; x5e; xa0; x84; x27; x58; xa1; xab; x0b; x00; xe8; xc0; x74; x78; x31;
   x00; x00; x00].

Definition plain_padded : bytes := (IKCFG_ST ++ replicate 15 x00 ++ config_gz)%list.

Definition kernel_stored : bytes :=
  ([x1f; x8b; x08; x00; x00; x00; x00; x00; x04; x03; x01; x38; x00; xc7; xff]
   ++ plain_padded ++ [x35; xec; x43; x4f; x38; x00; x00; x00])%list.

(** The gzip decoder on the three streams above; the other decoders are not
    used by the examples and deliver nothing. *)
Definition example_gzip (src : bytes) : reader + error :=
  if decide (src = config_gz) then inl (mkReader config_text None)
  else if decide (src = kernel_gz) then inl (mkReader plain_image None)
  else if decide (src = kernel_stored) then inl (mkReader plain_padded None)
  else inr (StreamError "gzip: invalid header").

Definition example_codecs : Codecs := {|
  gzip_NewReader := example_gzip;
  bzip2_NewReader := fun _ => mkReader [] (Some (StreamError "bzip2 data invalid"));
  xz_NewReader := fun _ => inr (StreamError "xz: invalid header magic bytes");
  zstd_NewReader := fun _ => inr (StreamError "magic number mismatch")
|}.

(** A file system with the two kernel images and a [config] file in the
    working directory. *)
Definition example_os : OS :=
  mkOS {[ "vmlinuz" := kernel_gz; "vmlinuz.stored" := kernel_stored; "config" := [] ]}
       (inl "/tmp/ikconfig1") (fun _ => None).

(** The reader [decompress] builds for a stream format, and the prefix it
    puts before a failure of that reader. *)
Inductive stream_reader `{Codecs} (kernel : bytes) : KernelCompressionType -> reader -> string -> Prop :=
  | gzip_stream r :
      gzip_NewReader kernel = inl r ->
      stream_reader kernel KERNEL_COMPRESSION_TYPE_GZIP r "error decompressing gzip"
  | bzip2_stream :
      stream_reader kernel KERNEL_COMPRESSION_TYPE_BZIP2 (bzip2_NewReader kernel)
        "error decompressing bzip2"
  | xz_stream r :
      xz_NewReader kernel = inl r ->
      stream_reader kernel KERNEL_COMPRESSION_TYPE_XZ r "error decompressing xz"
  | zstd_stream r :
      zstd_NewReader kernel = inl r ->
      stream_reader kernel KERNEL_COMPRESSION_TYPE_ZSTD r "error decompressing zstd".

(** Decides the comparisons of a tag with the declared constants. *)
Ltac tag_cases :=
  repeat match goal with
         | |- context [decide (?a = ?b)] =>
             let Hd := fresh "Hd" in
             destruct (decide (a = b)) as [Hd|Hd];
             [try (vm_compute in Hd; discriminate Hd)
             |try (exfalso; apply Hd; reflexivity)]
         end.

Ltac unfold_tags :=
  unfold KERNEL_COMPRESSION_TYPE_NONE, KERNEL_COMPRESSION_TYPE_UNKNOWN,
    KERNEL_COMPRESSION_TYPE_GZIP, KERNEL_COMPRESSION_TYPE_BZIP2,
    KERNEL_COMPRESSION_TYPE_LZMA, KERNEL_COMPRESSION_TYPE_XZ,
    KERNEL_COMPRESSION_TYPE_ZSTD, KERNEL_COMPRESSION_TYPE_LZO,
    KERNEL_COMPRESSION_TYPE_LZ4 in *.

Ltac go_step :=
  cbn [compare_rest scan]; unfold index, mbind, go_bind.

Example fmt_example : MagicNotFoundErr_Error [x13; x37; xff; x00] = "magic string [19 55 255 0] not found".
Proof. reflexivity. Qed.

Example search_ex1 : search [x00; x00; x00] [x01] = Ret (0, Some (MagicNotFoundErr "magic string not found" [x01])).
Proof. reflexivity. Qed.

Example search_ex2 : search [x00; x13; x37] [x13; x37] = Ret (1, None).
Proof. reflexivity. Qed.

Example search_ex3 : search [x00] [x00; x00] = Panic (IndexOutOfRange 1 1).
Proof. reflexivity. Qed.

(** * Properties *)

(** ** The byte search *)


Lemma occurs_at_lookup dat b i :
  occurs_at dat b i <-> forall j, j < length b -> dat !! (i + j) = b !! j.
Proof.
  unfold occurs_at. split.
  - intros E j Hj.
    assert (take (length b) (drop i dat) !! j = b !! j) as <- by (rewrite E; reflexivity).
    rewrite lookup_take_lt, lookup_drop by exact Hj. reflexivity.
  - intros E. apply list_eq. intros j.
    destruct (decide (j < length b)) as [Hj|Hj].
    + rewrite lookup_take_lt, lookup_drop by exact Hj. auto.
    + rewrite lookup_take_ge by lia. symmetry. apply lookup_ge_None. lia.
Qed.

Lemma occurs_at_bound dat b i :
  occurs_at dat b i -> b <> [] -> i + length b <= length dat.
Proof.
  intros E Hb. unfold occurs_at in E.
  apply (f_equal length) in E. rewrite length_take, length_drop in E.
  destruct b as [|x b]; [congruence|]. cbn [length] in *. lia.
Qed.


Lemma compare_rest_true dat b i j n :
  j + n = length b ->
  compare_rest dat b i j n = Ret true <->
  forall j', j <= j' < length b -> dat !! (i + j') = b !! j'.
Proof.
  revert j. induction n as [|n IH]; intros j Hn.
  - split; [intros _ j' Hj'; lia | reflexivity].
  - go_step.
    destruct (lookup_lt_is_Some_2 b j ltac:(lia)) as [y Hy].
    rewrite Hy. destruct (dat !! (i + j)) as [x|] eqn:Hx.
    + destruct (decide (x = y)) as [->|Hne].
      * rewrite IH by lia. split; intros E j' Hj'.
        -- destruct (decide (j' = j)) as [->|]; [congruence|]. apply E. lia.
        -- apply E. lia.
      * split; [discriminate|]. intros E.
        specialize (E j ltac:(lia)). congruence.
    + split; [discriminate|]. intros E.
      specialize (E j ltac:(lia)). congruence.
Qed.

Lemma compare_rest_returns dat b i j n :
  j + n = length b -> i + length b <= length dat ->
  exists r, compare_rest dat b i j n = Ret r.
Proof.
  revert j. induction n as [|n IH]; intros j Hn Hlen; [simpl; eauto|].
  go_step.
  destruct (lookup_lt_is_Some_2 b j ltac:(lia)) as [y Hy].
  destruct (lookup_lt_is_Some_2 dat (i + j) ltac:(lia)) as [x Hx].
  rewrite Hx, Hy. destruct (decide (x = y)); eauto. apply IH; lia.
Qed.

Lemma compare_rest_panic dat b i j n p :
  j + n = length b ->
  compare_rest dat b i j n = Panic p ->
  exists j', j <= j' < length b /\ length dat <= i + j' /\
    p = IndexOutOfRange (Z.of_nat (i + j')) (Z.of_nat (length dat)) /\
    forall j'', j <= j'' < j' -> dat !! (i + j'') = b !! j''.
Proof.
  revert j. induction n as [|n IH]; intros j Hn; [discriminate|].
  go_step.
  destruct (lookup_lt_is_Some_2 b j ltac:(lia)) as [y Hy].
  rewrite Hy. destruct (dat !! (i + j)) as [x|] eqn:Hx.
  - destruct (decide (x = y)) as [->|Hne]; [|discriminate].
    intros E. apply IH in E as (j' & Hj' & Hge & -> & Hpre); [|lia].
    exists j'. split; [lia|]. split; [lia|]. split; [reflexivity|].
    intros j'' Hj''.
    destruct (decide (j'' = j)) as [->|]; [congruence|]. apply Hpre. lia.
  - intros [= <-]. apply lookup_ge_None in Hx.
    exists j. split; [lia|]. split; [lia|]. split; [reflexivity|]. intros; lia.
Qed.

Lemma compare_rest_false dat b i j n :
  j + n = length b ->
  compare_rest dat b i j n = Ret false ->
  exists j' x y, j <= j' < length b /\
    dat !! (i + j') = Some x /\ b !! j' = Some y /\ x <> y.
Proof.
  revert j. induction n as [|n IH]; intros j Hn; [discriminate|].
  go_step.
  destruct (lookup_lt_is_Some_2 b j ltac:(lia)) as [y Hy].
  rewrite Hy. destruct (dat !! (i + j)) as [x|] eqn:Hx; [|discriminate].
  destruct (decide (x = y)) as [->|Hne].
  - intros E. apply IH in E as (j' & x' & y' & Hj' & E); [|lia].
    exists j', x', y'. split; [lia|exact E].
  - intros _. exists j, x, y. split; [lia|]. auto.
Qed.


(** One iteration of the outer loop. *)
Lemma scan_step dat b i n :
  b <> [] -> i < length dat ->
  (occurs_at dat b i /\ scan dat b i (S n) = Ret (i, None)) \/
  (~ occurs_at dat b i /\ ~ overhang dat b i /\
     scan dat b i (S n) = scan dat b (S i) n) \/
  (~ occurs_at dat b i /\ overhang dat b i /\
     scan dat b i (S n)
     = Panic (IndexOutOfRange (Z.of_nat (length dat)) (Z.of_nat (length dat)))).
Proof.
  intros Hb Hi.
  assert (0 < length b) as Hlen by (destruct b; [congruence|simpl; lia]).
  go_step.
  destruct (lookup_lt_is_Some_2 dat i Hi) as [x Hx].
  destruct (lookup_lt_is_Some_2 b 0 Hlen) as [y Hy].
  rewrite Hx, Hy.
  destruct (decide (x = y)) as [->|Hne].
  - destruct (compare_rest dat b i 1 (length b - 1)) as [[|]|p] eqn:Hc.
    + left. split; [|reflexivity].
      rewrite compare_rest_true in Hc by lia.
      apply occurs_at_lookup. intros j Hj.
      destruct (decide (j = 0)) as [->|]; [|apply Hc; lia].
      rewrite Nat.add_0_r. congruence.
    + right; left.
      apply compare_rest_false in Hc as (j' & x' & y' & Hj' & Hx' & Hy' & Hne); [|lia].
      split; [|split; [|reflexivity]].
      * intros Ho. rewrite occurs_at_lookup in Ho.
        specialize (Ho j' ltac:(lia)). congruence.
      * intros [_ Ho]. apply lookup_lt_Some in Hx' as Hlt.
        specialize (Ho j' ltac:(lia)). congruence.
    + right; right.
      apply compare_rest_panic in Hc as (j' & Hj' & Hge & -> & Hpre); [|lia].
      assert (i + j' = length dat) as Hend.
      { destruct (decide (j' = 1)) as [->|]; [lia|].
        specialize (Hpre (j' - 1) ltac:(lia)).
        destruct (lookup_lt_is_Some_2 b (j' - 1) ltac:(lia)) as [z Hz].
        rewrite Hz in Hpre. apply lookup_lt_Some in Hpre. lia. }
      split; [|split].
      * intros Ho. apply occurs_at_bound in Ho; [lia|exact Hb].
      * split; [lia|]. intros j Hj.
        destruct (decide (j = 0)) as [->|]; [|apply Hpre; lia].
        rewrite Nat.add_0_r. congruence.
      * rewrite Hend. reflexivity.
  - right; left. split; [|split; [|reflexivity]].
    + intros Ho. rewrite occurs_at_lookup in Ho.
      specialize (Ho 0 Hlen). rewrite Nat.add_0_r in Ho. congruence.
    + intros [_ Ho]. specialize (Ho 0 ltac:(lia)).
      rewrite Nat.add_0_r in Ho. congruence.
Qed.

(** What the outer loop, entered at [i], ends with: the first occurrence at
    or after [i]; the not-found error when no candidate from [i] on occurs or
    overhangs; a panic at the first candidate that overhangs. *)
Lemma scan_spec dat b i n :
  b <> [] -> i + n = length dat ->
  match scan dat b i n with
  | Ret (r, None) =>
      i <= r /\ occurs_at dat b r /\
      forall i', i <= i' < r -> ~ occurs_at dat b i' /\ ~ overhang dat b i'
  | Ret (r, Some e) =>
      r = 0 /\ e = MagicNotFoundErr "magic string not found" b /\
      forall i', i <= i' -> ~ occurs_at dat b i' /\ (i' < length dat -> ~ overhang dat b i')
  | Panic p =>
      p = IndexOutOfRange (Z.of_nat (length dat)) (Z.of_nat (length dat)) /\
      exists i0, i <= i0 < length dat /\ overhang dat b i0 /\
        (forall i', i <= i' < i0 -> ~ overhang dat b i') /\
        forall i', i <= i' -> ~ occurs_at dat b i'
  end.
Proof.
  intros Hb. revert i. induction n as [|n IH]; intros i Hn.
  - cbn [scan]. split; [reflexivity|]. split; [reflexivity|].
    intros i' Hi'. split; [|lia].
    intros Ho. apply occurs_at_bound in Ho; [|exact Hb].
    destruct b; [congruence|]. simpl in Ho. lia.
  - destruct (scan_step dat b i n Hb ltac:(lia))
      as [[Ho ->]|[(Hno & Hnv & ->)|(Hno & Hv & ->)]].
    + split; [lia|]. split; [exact Ho|]. intros; lia.
    + specialize (IH (S i) ltac:(lia)).
      destruct (scan dat b (S i) n) as [[r [e|]]|p].
      * destruct IH as (-> & -> & IH). split; [reflexivity|]. split; [reflexivity|].
        intros i' Hi'. destruct (decide (i' = i)) as [->|]; [auto|]. apply IH. lia.
      * destruct IH as (Hr & Ho & IH). split; [lia|]. split; [exact Ho|].
        intros i' Hi'. destruct (decide (i' = i)) as [->|]; [auto|]. apply IH. lia.
      * destruct IH as (-> & i0 & Hi0 & Hv & Hnv' & IH). split; [reflexivity|].
        exists i0. split; [lia|]. split; [exact Hv|]. split.
        -- intros i' Hi'. destruct (decide (i' = i)) as [->|]; [auto|]. apply Hnv'. lia.
        -- intros i' Hi'. destruct (decide (i' = i)) as [->|]; [auto|]. apply IH. lia.
    + split; [reflexivity|]. exists i. split; [lia|]. split; [exact Hv|]. split.
      * intros; lia.
      * intros i' Hi' Ho. apply occurs_at_bound in Ho; [|exact Hb].
        destruct Hv as [Hv _]. lia.
Qed.


Lemma overhang_no_earlier_occurrence dat b i i' :
  b <> [] -> overhang dat b i' -> occurs_at dat b i -> i < i'.
Proof.
  intros Hb [Hv _] Ho. apply occurs_at_bound in Ho; [lia|exact Hb].
Qed.

(** A successful search reports the lowest occurrence. *)
Lemma search_sound dat b r :
  b <> [] -> search dat b = Ret (r, None) -> first_occurrence dat b r.
Proof.
  intros Hb E. pose proof (scan_spec dat b 0 (length dat) Hb eq_refl) as S.
  unfold search in E. rewrite E in S. destruct S as (_ & Ho & Hlow).
  split; [exact Ho|]. intros i' Hi'. apply Hlow. lia.
Qed.

(** Where the pattern occurs, the search succeeds, at the lowest occurrence. *)
Lemma search_complete dat b i :
  b <> [] -> first_occurrence dat b i -> search dat b = Ret (i, None).
Proof.
  intros Hb [Ho Hlow]. pose proof (scan_spec dat b 0 (length dat) Hb eq_refl) as S.
  unfold search. destruct (scan dat b 0 (length dat)) as [[r [e|]]|p].
  - destruct S as (_ & _ & Hno). destruct (Hno i ltac:(lia)) as [Hno' _]. contradiction.
  - destruct S as (_ & Hr & Hmin).
    destruct (Nat.lt_trichotomy r i) as [Hlt|[->|Hgt]]; [|reflexivity|].
    + exfalso. exact (Hlow r Hlt Hr).
    + exfalso. destruct (Hmin i ltac:(lia)) as [Hno' _]. contradiction.
  - destruct S as (_ & i0 & _ & _ & _ & Hno). exfalso. exact (Hno i ltac:(lia) Ho).
Qed.

(** The not-found error is returned only when the pattern does not occur. *)
Lemma search_not_found dat b r e :
  b <> [] -> search dat b = Ret (r, Some e) ->
  r = 0 /\ e = MagicNotFoundErr "magic string not found" b /\
  (forall i, ~ occurs_at dat b i) /\
  (forall i, i < length dat -> ~ overhang dat b i).
Proof.
  intros Hb E. pose proof (scan_spec dat b 0 (length dat) Hb eq_refl) as S.
  unfold search in E. rewrite E in S. destruct S as (-> & -> & Hno).
  split; [reflexivity|]. split; [reflexivity|]. split.
  - intros i. apply Hno. lia.
  - intros i Hi. apply Hno; [lia|exact Hi].
Qed.

(** With no occurrence and no candidate running past the end, the search
    returns the not-found error. *)
Lemma search_not_found_complete dat b :
  b <> [] -> (forall i, ~ occurs_at dat b i) ->
  (forall i, i < length dat -> ~ overhang dat b i) ->
  search dat b = Ret (0, Some (MagicNotFoundErr "magic string not found" b)).
Proof.
  intros Hb Hno Hnv. pose proof (scan_spec dat b 0 (length dat) Hb eq_refl) as S.
  unfold search. destruct (scan dat b 0 (length dat)) as [[r [e|]]|p].
  - destruct S as (-> & -> & _). reflexivity.
  - destruct S as (_ & Hr & _). exfalso. exact (Hno r Hr).
  - destruct S as (_ & i0 & Hi0 & Hv & _). exfalso. exact (Hnv i0 ltac:(lia) Hv).
Qed.

(** With no occurrence, a candidate that agrees with the pattern up to the
    end of the buffer makes the search panic. *)
Lemma search_reads_past_end_general (dat b : bytes) (i : nat) :
  b <> [] -> (forall i', ~ occurs_at dat b i') ->
  i < length dat -> overhang dat b i ->
  search dat b
  = Panic (IndexOutOfRange (Z.of_nat (length dat)) (Z.of_nat (length dat))).
Proof.
  intros Hb Hno Hi Hv. pose proof (scan_spec dat b 0 (length dat) Hb eq_refl) as S.
  unfold search. destruct (scan dat b 0 (length dat)) as [[r [e|]]|p].
  - destruct S as (_ & _ & Hnv). destruct (Hnv i ltac:(lia)) as [_ Hnv']. tauto.
  - destruct S as (_ & Hr & _). exfalso. exact (Hno r Hr).
  - destruct S as (-> & _). reflexivity.
Qed.

(** C1 (the code's behaviour): where the pattern does not occur and some
    candidate start index [i] agrees with the pattern up to the end of the
    buffer while the pattern extends past it, the inner loop indexes the
    buffer at [len(dat)] and the search panics instead of rejecting the
    candidate. *)
Theorem search_reads_past_end (dat b : bytes) (i : nat) :
  b <> [] -> (forall i', ~ occurs_at dat b i') ->
  i < length dat -> overhang dat b i ->
  search dat b
  = Panic (IndexOutOfRange (Z.of_nat (length dat)) (Z.of_nat (length dat))).
Proof.
  intros Hb Hno Hi Hv. pose proof (scan_spec dat b 0 (length dat) Hb eq_refl) as S.
  unfold search. destruct (scan dat b 0 (length dat)) as [[r [e|]]|p].
  - destruct S as (_ & _ & Hnv). destruct (Hnv i ltac:(lia)) as [_ Hnv']. tauto.
  - destruct S as (_ & Hr & _). exfalso. exact (Hno r Hr).
  - destruct S as (-> & _). reflexivity.
Qed.

Lemma search_reads_past_end_witness :
  search [x00] [x00; x00] = Panic (IndexOutOfRange 1 1).
Proof.
  apply (search_reads_past_end [x00] [x00; x00] 0).
  - discriminate.
  - intros i' Ho. apply occurs_at_bound in Ho; [simpl in Ho; lia|discriminate].
  - simpl; lia.
  - split; [simpl; lia|]. intros j Hj. simpl in Hj.
    replace j with 0 by lia. reflexivity.
Defined.

(** C2 (the code's behaviour): on the buffer [01 00] the pattern [00 00] does
    not occur, and [SearchBytes] panics at index 2 instead of returning the
    not-found error. *)
Theorem SearchBytes_no_occurrence_panics :
  let w := mkOS {["testdata/tail.bin" := [x01; x00]]} (inl "/tmp/ikconfig1") (fun _ => None) in
  (forall i, ~ occurs_at [x01; x00] [x00; x00] i) /\
  SearchBytes w "testdata/tail.bin" [x00; x00] = Panic (IndexOutOfRange 2 2).
Proof.
  split.
  - intros i Ho. pose proof (occurs_at_bound _ _ _ Ho ltac:(discriminate)) as Hi.
    simpl in Hi. replace i with 0 in Ho by lia. discriminate Ho.
  - vm_compute. reflexivity.
Qed.

(** C8: for non-empty patterns [p1], [p2] with [p1] a prefix of [p2], when
    both searches succeed the offset for [p1] is at most the offset for [p2];
    and when both patterns first occur at the same index, both searches
    return that index. *)
Theorem search_prefix_monotone (dat p1 p2 : bytes) :
  p1 <> [] -> p2 <> [] -> p1 `prefix_of` p2 ->
  (forall r1 r2, search dat p1 = Ret (r1, None) -> search dat p2 = Ret (r2, None) ->
     r1 <= r2) /\
  (forall i, first_occurrence dat p1 i -> first_occurrence dat p2 i ->
     search dat p1 = Ret (i, None) /\ search dat p2 = Ret (i, None)).
Proof.
  intros H1 H2 [k ->]. split.
  - intros r1 r2 E1 E2.
    apply search_sound in E1 as [_ Hlow]; [|exact H1].
    apply search_sound in E2 as [Ho _]; [|exact H2].
    destruct (decide (r1 <= r2)) as [|Hgt]; [assumption|]. exfalso.
    apply (Hlow r2); [lia|].
    apply occurs_at_lookup. intros j Hj.
    rewrite occurs_at_lookup in Ho. rewrite Ho by (rewrite length_app; lia).
    apply lookup_app_l. exact Hj.
  - intros i F1 F2. split; apply search_complete; assumption.
Qed.

Lemma search_prefix_monotone_witness :
  search [x00; x00; x00] [x00] = Ret (0, None) /\
  search [x00; x00; x00] [x00; x00] = Ret (0, None).
Proof.
  refine (proj2 (search_prefix_monotone [x00; x00; x00] [x00] [x00; x00] _ _ _) 0 _ _).
  - discriminate.
  - discriminate.
  - exists [x00]. reflexivity.
  - split; [reflexivity|]. intros i' Hi'. lia.
  - split; [reflexivity|]. intros i' Hi'. lia.
Defined.

(** On a buffer of at least two zero bytes the patterns [00] and [00 00] are
    both found at offset 0. *)
Lemma search_zero_buffer (n : nat) :
  search (replicate (S (S n)) x00) [x00] = Ret (0, None) /\
  search (replicate (S (S n)) x00) [x00; x00] = Ret (0, None).
Proof.
  unfold search. rewrite length_replicate. split; reflexivity.
Qed.

(** A buffer of zero bytes with [13 37] at offset 1022. *)
Example search_magic_bin :
  search (replicate 1022 x00 ++ [x13; x37])%list [x13; x37] = Ret (1022, None).
Proof. vm_compute. reflexivity. Qed.


Lemma overhang_first_byte dat b i :
  i < length dat -> overhang dat b i -> dat !! i = b !! 0.
Proof.
  intros Hi [_ Hv]. specialize (Hv 0 ltac:(lia)). rewrite Nat.add_0_r in Hv. exact Hv.
Qed.

Lemma occurs_at_first_byte dat b i :
  b <> [] -> occurs_at dat b i -> dat !! i = b !! 0.
Proof.
  intros Hb Ho. rewrite occurs_at_lookup in Ho.
  specialize (Ho 0). rewrite Nat.add_0_r in Ho. apply Ho.
  destruct b; [congruence|simpl; lia].
Qed.



(** ** The configuration map *)

(** C10: [Get] returns the stored value and no error exactly when the key is
    in the map, returns the empty string and the error naming the key exactly
    when it is not, and leaves the map as it was. *)
Theorem Get_spec (m : KernelConfigMap) (key : string) :
  (forall v, snd (Get m key) = (v, None) <-> m !! key = Some v) /\
  (snd (Get m key) = ("", Some (KeyNotFound key)) <-> m !! key = None) /\
  (forall e, snd (snd (Get m key)) = Some e -> e = KeyNotFound key) /\
  fst (Get m key) = m.
Proof.
  unfold Get. destruct (m !! key) as [val|]; simpl.
  - split; [|split; [|split]].
    + intros v. split; congruence.
    + split; discriminate.
    + discriminate.
    + reflexivity.
  - split; [|split; [|split]].
    + intros v. split; discriminate.
    + split; reflexivity.
    + congruence.
    + reflexivity.
Qed.

Example Get_example :
  let m : KernelConfigMap := {["CONFIG_SMP" := "y"]} in
  Get m "CONFIG_SMP" = (m, ("y", None)) /\
  Get m "CONFIG_NUMA" = (m, ("", Some (KeyNotFound "CONFIG_NUMA"))).
Proof. split; vm_compute; reflexivity. Qed.

(** ** The signature table *)

(** X11: [Magic] returns a signature exactly for the receivers 0, 1 and 2
    (gzip, bzip2, lzma); for every other value of the tag it panics. *)
Lemma Magic_returns_iff (k : KernelCompressionType) :
  (exists m, Magic k = Ret m) <-> (0 <= k < 3)%Z.
Proof.
  unfold Magic. destruct (decide (0 <= k)%Z) as [Hk|Hk].
  - destruct (magic_table !! Z.to_nat k) as [m|] eqn:E.
    + apply lookup_lt_Some in E. simpl in E. split; [lia|eauto].
    + apply lookup_ge_None in E. simpl in E.
      split; [intros [m [=]]|lia].
  - split; [intros [m [=]]|lia].
Qed.

(** C6 (the code's behaviour): of the four tags with a decoder, only gzip
    gets its own signature; bzip2 gets the entry the source comments as XZ
    and not the one it comments as bunzip2; xz and zstd index the
    three-entry array out of range and panic. *)
Theorem Magic_supported_tags :
  Magic KERNEL_COMPRESSION_TYPE_GZIP = Ret magic_gzip_entry /\
  Magic KERNEL_COMPRESSION_TYPE_BZIP2 = Ret magic_xz_entry /\
  Magic KERNEL_COMPRESSION_TYPE_BZIP2 <> Ret magic_bunzip2_entry /\
  Magic KERNEL_COMPRESSION_TYPE_XZ = Panic (IndexOutOfRange 3 3) /\
  Magic KERNEL_COMPRESSION_TYPE_ZSTD = Panic (IndexOutOfRange 6 3).
Proof.
  repeat split; try reflexivity. discriminate.
Qed.

(** ** Decompression and extraction *)

Section Decoder.
Context `{Codecs}.

(** The state [decompress] leaves when the temporary file was created and
    nothing was written to it. *)
Lemma decompress_empty_case (w : OS) (k : KernelConfig) (tmpdir : string) :
  mkdir_temp w = inl tmpdir ->
  create_err w (tmpdir ++ "/vmlinux") = None ->
  is_Some (<[tmpdir ++ "/vmlinux" := []]> (files w) !! path k) ->
  (forall w' kernel,
     decompress_switch w'
       (mkKernelConfig (path k) (tmpdir ++ "/vmlinux") (compressionType k)) kernel
     = (w', None)) ->
  decompress w k
  = (set_files w (<[tmpdir ++ "/vmlinux" := []]> (files w)),
     mkKernelConfig (path k) (tmpdir ++ "/vmlinux") (compressionType k),
     None).
Proof.
  intros Hm Hc [kernel Hk] Hs. unfold decompress, os_Create, os_Open.
  rewrite Hm. cbn [pathDecompressed path]. rewrite Hc.
  cbn [files set_files]. rewrite Hk, Hs. reflexivity.
Qed.

(** C3 (the code's behaviour): with the tag lzma, lzo or lz4, once the
    temporary file is created and the source opened, [decompress] returns no
    error and leaves the decompressed file empty. *)
Theorem decompress_unimplemented_succeeds (w : OS) (k : KernelConfig) (tmpdir : string) :
  compressionType k = KERNEL_COMPRESSION_TYPE_LZMA \/
  compressionType k = KERNEL_COMPRESSION_TYPE_LZO \/
  compressionType k = KERNEL_COMPRESSION_TYPE_LZ4 ->
  mkdir_temp w = inl tmpdir ->
  create_err w (tmpdir ++ "/vmlinux") = None ->
  is_Some (<[tmpdir ++ "/vmlinux" := []]> (files w) !! path k) ->
  exists w' k',
    decompress w k = (w', k', None) /\
    pathDecompressed k' = tmpdir ++ "/vmlinux" /\
    files w' !! pathDecompressed k' = Some [].
Proof.
  intros Ht Hm Hc Hk. eexists _, _. split; [|split].
  - apply (decompress_empty_case w k tmpdir Hm Hc Hk).
    intros w' kernel. unfold decompress_switch. cbn [compressionType].
    destruct Ht as [-> | [-> | ->]]; reflexivity.
  - reflexivity.
  - cbn [files set_files pathDecompressed]. apply lookup_insert_eq.
Qed.

(** C5 (the code's behaviour): with the tag unknown no signature is probed;
    once the temporary file is created and the source opened, [decompress]
    returns no error and leaves the decompressed file empty. *)
Theorem decompress_unknown_succeeds (w : OS) (k : KernelConfig) (tmpdir : string) :
  compressionType k = KERNEL_COMPRESSION_TYPE_UNKNOWN ->
  mkdir_temp w = inl tmpdir ->
  create_err w (tmpdir ++ "/vmlinux") = None ->
  is_Some (<[tmpdir ++ "/vmlinux" := []]> (files w) !! path k) ->
  exists w' k',
    decompress w k = (w', k', None) /\
    pathDecompressed k' = tmpdir ++ "/vmlinux" /\
    files w' !! pathDecompressed k' = Some [].
Proof.
  intros Ht Hm Hc Hk. eexists _, _. split; [|split].
  - apply (decompress_empty_case w k tmpdir Hm Hc Hk).
    intros w' kernel. unfold decompress_switch. cbn [compressionType].
    rewrite Ht. reflexivity.
  - reflexivity.
  - cbn [files set_files pathDecompressed]. apply lookup_insert_eq.
Qed.

(** [decompress] keeps the source path of the receiver. *)
Lemma decompress_path (w w1 : OS) (k k1 : KernelConfig) (err : option error) :
  decompress w k = (w1, k1, err) -> path k1 = path k.
Proof.
  unfold decompress. destruct (mkdir_temp w) as [tmpdir|e].
  - destruct (os_Create w _) as [w2 [e| ]]; [intros [= _ <- _]; reflexivity|].
    destruct (os_Open w2 _) as [kernel [e| ]]; [intros [= _ <- _]; reflexivity|].
    destruct (decompress_switch w2 _ kernel) as [w3 err3].
    intros [= _ <- _]. reflexivity.
  - intros [= _ <- _]. reflexivity.
Qed.

(** C4 (the code's behaviour): after a successful decompression the marker
    is searched in the file at the source path: when the source bytes hold
    no marker, [ParseKernelConfig] returns the marker-not-found error
    whatever the decompressed file holds. *)
Theorem ParseKernelConfig_searches_source
    (w w1 : OS) (k k1 : KernelConfig) (dat : bytes) :
  decompress w k = (w1, k1, None) ->
  files w1 !! path k = Some dat ->
  (forall i, ~ occurs_at dat KERNEL_CONFIG_MAGIC i) ->
  (forall i, i < length dat -> ~ overhang dat KERNEL_CONFIG_MAGIC i) ->
  ParseKernelConfig w k
  = Ret (w1, k1,
         (None,
          Some (Wrap "error finding magic string in kernel config"
                  (MagicNotFoundErr "magic string not found" KERNEL_CONFIG_MAGIC)))).
Proof.
  intros Hd Hf Hno Hnv. unfold ParseKernelConfig. rewrite Hd.
  unfold findKernelConfigMagic, SearchBytes, os_ReadFile.
  rewrite (decompress_path _ _ _ _ _ Hd), Hf.
  rewrite (search_not_found_complete dat KERNEL_CONFIG_MAGIC) by (done || discriminate).
  reflexivity.
Qed.

(** C7 (the code's behaviour): whenever [ParseKernelConfig] returns a map,
    it is the empty map: no line of the configuration text is parsed. *)
Theorem ParseKernelConfig_map_empty
    (w w1 : OS) (k k1 : KernelConfig) (m : KernelConfigMap) (err : option error) :
  ParseKernelConfig w k = Ret (w1, k1, (Some m, err)) ->
  m = ∅ /\ err = None.
Proof.
  unfold ParseKernelConfig.
  destruct (decompress w k) as [[w2 k2] [e| ]]; [discriminate|].
  destruct (findKernelConfigMagic w2 k2) as [[magicOffset [e| ]]|p];
    cbn [mbind go_bind]; [discriminate| |discriminate].
  destruct (os_ReadFile w2 (pathDecompressed k2)) as [configDecompressed [e| ]];
    [discriminate|].
  destruct (slice_from configDecompressed (magicOffset + 8)) as [configBuf|p];
    cbn [mbind go_bind]; [|discriminate].
  destruct (os_Open w2 "config") as [out [e| ]]; [discriminate|].
  destruct (gzip_NewReader configBuf) as [gzipReader|e]; [|discriminate].
  intros [= _ _ <- <-]. auto.
Qed.

End Decoder.

(** *** The theorems above on the example file system *)

Lemma decompress_unimplemented_succeeds_witness :
  exists w' k',
    @decompress example_codecs example_os
      (mkKernelConfig "vmlinuz" "" KERNEL_COMPRESSION_TYPE_LZ4) = (w', k', None) /\
    pathDecompressed k' = "/tmp/ikconfig1" ++ "/vmlinux" /\
    files w' !! pathDecompressed k' = Some [].
Proof.
  apply (@decompress_unimplemented_succeeds example_codecs example_os
           (mkKernelConfig "vmlinuz" "" KERNEL_COMPRESSION_TYPE_LZ4) "/tmp/ikconfig1").
  - right; right; reflexivity.
  - reflexivity.
  - reflexivity.
  - vm_compute. eauto.
Defined.

Lemma decompress_unknown_succeeds_witness :
  exists w' k',
    @decompress example_codecs example_os
      (mkKernelConfig "vmlinuz" "" KERNEL_COMPRESSION_TYPE_UNKNOWN) = (w', k', None) /\
    pathDecompressed k' = "/tmp/ikconfig1" ++ "/vmlinux" /\
    files w' !! pathDecompressed k' = Some [].
Proof.
  apply (@decompress_unknown_succeeds example_codecs example_os
           (mkKernelConfig "vmlinuz" "" KERNEL_COMPRESSION_TYPE_UNKNOWN) "/tmp/ikconfig1").
  - reflexivity.
  - reflexivity.
  - reflexivity.
  - vm_compute. eauto.
Defined.

(** The gzip stream [kernel_gz] holds no marker, the image it decompresses
    to starts with one. *)
Lemma ParseKernelConfig_searches_source_witness :
  let k := mkKernelConfig "vmlinuz" "" KERNEL_COMPRESSION_TYPE_GZIP in
  let w1 := fst (fst (@decompress example_codecs example_os k)) in
  let k1 := snd (fst (@decompress example_codecs example_os k)) in
  files w1 !! pathDecompressed k1 = Some plain_image /\
  occurs_at plain_image KERNEL_CONFIG_MAGIC 0 /\
  @ParseKernelConfig example_codecs example_os k
  = Ret (w1, k1,
         (None,
          Some (Wrap "error finding magic string in kernel config"
                  (MagicNotFoundErr "magic string not found" KERNEL_CONFIG_MAGIC)))).
Proof.
  intros k w1 k1. split; [vm_compute; reflexivity|]. split; [vm_compute; reflexivity|].
  assert (search kernel_gz KERNEL_CONFIG_MAGIC
          = Ret (0, Some (MagicNotFoundErr "magic string not found" KERNEL_CONFIG_MAGIC)))
    as E by (vm_compute; reflexivity).
  apply search_not_found in E as (_ & _ & Hno & Hnv); [|discriminate].
  apply (@ParseKernelConfig_searches_source example_codecs example_os w1 k k1 kernel_gz).
  - vm_compute. reflexivity.
  - vm_compute. reflexivity.
  - exact Hno.
  - exact Hnv.
Defined.

(** The stored image decompresses, the marker is found at offset 15 of the
    stream, the gzip header of the configuration is read at offset 23 of the
    decompressed image, and the map returned is empty although the
    configuration text is the line [CONFIG_SMP=y]. *)
Lemma ParseKernelConfig_map_empty_witness :
  let k := mkKernelConfig "vmlinuz.stored" "" KERNEL_COMPRESSION_TYPE_GZIP in
  exists w1 k1 m,
    @ParseKernelConfig example_codecs example_os k = Ret (w1, k1, (Some m, None)) /\
    gzip_NewReader (Codecs := example_codecs) config_gz = inl (mkReader config_text None) /\
    m = ∅.
Proof.
  intros k.
  pose (r := fst (@decompress example_codecs example_os k)).
  exists (fst r), (snd r), ∅.
  assert (@ParseKernelConfig example_codecs example_os k
          = Ret (fst r, snd r, (Some ∅, None))) as E by (vm_compute; reflexivity).
  split; [exact E|]. split; [reflexivity|].
  symmetry.
  exact (proj1 (@ParseKernelConfig_map_empty example_codecs example_os (fst r) k (snd r)
                  ∅ None E)).
Defined.

(** With the tag none the link onto the file just created fails, the error
    is dropped, and the slice of the empty decompressed file panics. *)
Example ParseKernelConfig_none_panics :
  @ParseKernelConfig example_codecs
    (mkOS {["vmlinux" := plain_image; "config" := []]} (inl "/tmp/ikconfig1") (fun _ => None))
    (mkKernelConfig "vmlinux" "" KERNEL_COMPRESSION_TYPE_NONE)
  = Panic (SliceOutOfRange 8 0).
Proof. vm_compute. reflexivity. Qed.

(** * Further properties of the byte search *)

(** X1: for a non-empty pattern, the search returns offset [i] with no error
    exactly when [i] is the lowest index at which the pattern occurs. *)
Theorem search_success_iff (dat b : bytes) (i : nat) :
  b <> [] ->
  search dat b = Ret (i, None) <-> first_occurrence dat b i.
Proof.
  intros Hb. split.
  - apply search_sound. exact Hb.
  - apply search_complete. exact Hb.
Qed.

Lemma search_success_iff_witness :
  search [x00; x13; x37; x13; x37] [x13; x37] = Ret (1, None)
  <-> first_occurrence [x00; x13; x37; x13; x37] [x13; x37] 1.
Proof.
  apply (search_success_iff [x00; x13; x37; x13; x37] [x13; x37] 1). discriminate.
Defined.

(** X2: the offset of a successful search leaves room for the whole pattern
    inside the buffer. *)
Theorem search_offset_in_bounds (dat b : bytes) (i : nat) :
  b <> [] -> search dat b = Ret (i, None) ->
  i + length b <= length dat /\ take (length b) (drop i dat) = b.
Proof.
  intros Hb E. apply search_sound in E as [Ho _]; [|exact Hb].
  split; [apply occurs_at_bound; assumption|exact Ho].
Qed.

Lemma search_offset_in_bounds_witness :
  1 + length [x13; x37] <= length [x00; x13; x37] /\
  take (length [x13; x37]) (drop 1 [x00; x13; x37]) = [x13; x37].
Proof.
  apply (search_offset_in_bounds [x00; x13; x37] [x13; x37] 1);
    [discriminate|vm_compute; reflexivity].
Defined.

(** X3: for a non-empty pattern, the not-found error is returned exactly when
    the pattern occurs nowhere and no candidate runs past the end of the
    buffer while agreeing with the pattern. *)
Theorem search_not_found_iff (dat b : bytes) :
  b <> [] ->
  search dat b = Ret (0, Some (MagicNotFoundErr "magic string not found" b))
  <-> (forall i, ~ occurs_at dat b i) /\
      (forall i, i < length dat -> ~ overhang dat b i).
Proof.
  intros Hb. split.
  - intros E. apply search_not_found in E as (_ & _ & Hno & Hnv); auto.
  - intros [Hno Hnv]. apply search_not_found_complete; assumption.
Qed.

Lemma search_not_found_iff_witness :
  search [x00; x00] [x01; x02] = Ret (0, Some (MagicNotFoundErr "magic string not found" [x01; x02]))
  <-> (forall i, ~ occurs_at [x00; x00] [x01; x02] i) /\
      (forall i, i < length [x00; x00] -> ~ overhang [x00; x00] [x01; x02] i).
Proof.
  apply (search_not_found_iff [x00; x00] [x01; x02]). discriminate.
Defined.

(** X4: for a non-empty pattern, the search panics exactly when the pattern
    occurs nowhere and some candidate agrees with it up to the end of the
    buffer; the panic is always the read at index [len(dat)]. *)
Theorem search_panic_iff (dat b : bytes) (p : panic) :
  b <> [] ->
  search dat b = Panic p
  <-> p = IndexOutOfRange (Z.of_nat (length dat)) (Z.of_nat (length dat)) /\
      (forall i, ~ occurs_at dat b i) /\
      exists i, i < length dat /\ overhang dat b i.
Proof.
  intros Hb. split.
  - intros E. pose proof (scan_spec dat b 0 (length dat) Hb eq_refl) as S.
    unfold search in E. rewrite E in S.
    destruct S as (-> & i0 & Hi0 & Hv & _ & Hno).
    split; [reflexivity|]. split.
    + intros i. apply Hno. lia.
    + exists i0. split; [lia|exact Hv].
  - intros (-> & Hno & i & Hi & Hv).
    apply (search_reads_past_end_general dat b i); assumption.
Qed.

Lemma search_panic_iff_witness :
  search [x01; x00] [x00; x00] = Panic (IndexOutOfRange 2 2)
  <-> IndexOutOfRange 2 2 = IndexOutOfRange (Z.of_nat (length [x01; x00])) (Z.of_nat (length [x01; x00])) /\
      (forall i, ~ occurs_at [x01; x00] [x00; x00] i) /\
      exists i, i < length [x01; x00] /\ overhang [x01; x00] [x00; x00] i.
Proof.
  apply (search_panic_iff [x01; x00] [x00; x00] (IndexOutOfRange 2 2)). discriminate.
Defined.


(** X5: a pattern whose first byte is not in the buffer is reported as not
    found, whatever its length: no candidate is compared and nothing is read
    out of range. *)
Theorem search_first_byte_absent (dat : bytes) (x : Byte.byte) (rest : bytes) :
  x ∉ dat ->
  search dat (x :: rest)
  = Ret (0, Some (MagicNotFoundErr "magic string not found" (x :: rest))).
Proof.
  intros Hx. apply search_not_found_complete; [discriminate| |].
  - intros i Ho. apply occurs_at_first_byte in Ho; [|discriminate].
    apply Hx. apply list_elem_of_lookup. exists i. exact Ho.
  - intros i Hi Hv. apply overhang_first_byte in Hv; [|exact Hi].
    apply Hx. apply list_elem_of_lookup. exists i. exact Hv.
Qed.

Lemma search_first_byte_absent_witness :
  search [x00; x00; x00] [x01; x02; x03; x04]
  = Ret (0, Some (MagicNotFoundErr "magic string not found" [x01; x02; x03; x04])).
Proof.
  apply (search_first_byte_absent [x00; x00; x00] x01 [x02; x03; x04]).
  intros Hin. repeat (apply elem_of_cons in Hin as [Hin|Hin]; [discriminate Hin|]).
  apply elem_of_nil in Hin. exact Hin.
Defined.

(** X6: a one-byte pattern never makes the search panic: it returns the
    index of the first byte equal to it, or the not-found error when the
    buffer has no such byte. *)
Theorem search_single_byte (dat : bytes) (x : Byte.byte) :
  (exists i, search dat [x] = Ret (i, None) /\ dat !! i = Some x /\
             forall i', i' < i -> dat !! i' <> Some x) \/
  (search dat [x] = Ret (0, Some (MagicNotFoundErr "magic string not found" [x])) /\
   x ∉ dat).
Proof.
  pose proof (scan_spec dat [x] 0 (length dat) ltac:(discriminate) eq_refl) as S.
  unfold search. destruct (scan dat [x] 0 (length dat)) as [[r [e|]]|p].
  - destruct S as (-> & -> & Hno). right. split; [reflexivity|].
    intros Hin. apply list_elem_of_lookup in Hin as [i Hi].
    destruct (Hno i ltac:(lia)) as [Hno' _]. apply Hno'.
    apply occurs_at_lookup. intros j Hj. simpl in Hj.
    replace j with 0 by lia. rewrite Nat.add_0_r. exact Hi.
  - destruct S as (_ & Ho & Hlow). left. exists r. split; [reflexivity|]. split.
    + apply occurs_at_first_byte in Ho; [exact Ho|discriminate].
    + intros i' Hi' Hx. destruct (Hlow i' ltac:(lia)) as [Hno' _]. apply Hno'.
      apply occurs_at_lookup. intros j Hj. simpl in Hj.
      replace j with 0 by lia. rewrite Nat.add_0_r. exact Hx.
  - exfalso. destruct S as (_ & i0 & Hi0 & [Hv _] & _). simpl in Hv. lia.
Qed.

(** X7: the empty pattern is never matched: on an empty buffer the not-found
    error is returned (for every pattern), on a non-empty buffer the read of
    [b[0]] panics. *)
Theorem search_empty_cases :
  (forall b, search [] b = Ret (0, Some (MagicNotFoundErr "magic string not found" b))) /\
  (forall dat, dat <> [] -> search dat [] = Panic (IndexOutOfRange 0 0)).
Proof.
  split; [reflexivity|]. intros [|x dat] Hd; [congruence|]. reflexivity.
Qed.

Lemma search_empty_cases_witness :
  search [x00] [] = Panic (IndexOutOfRange 0 0).
Proof.
  apply (proj2 search_empty_cases [x00]). discriminate.
Defined.

Lemma occurs_at_app_l dat tail b i :
  i + length b <= length dat ->
  occurs_at (dat ++ tail) b i <-> occurs_at dat b i.
Proof.
  intros Hi. rewrite !occurs_at_lookup.
  split; intros Ho j Hj; specialize (Ho j Hj);
    rewrite lookup_app_l in * by lia; exact Ho.
Qed.

(** X8: bytes appended to the buffer do not change a successful search. *)
Theorem search_append_stable (dat tail b : bytes) (i : nat) :
  b <> [] -> search dat b = Ret (i, None) ->
  search (dat ++ tail) b = Ret (i, None).
Proof.
  intros Hb E. apply search_sound in E as [Ho Hlow]; [|exact Hb].
  pose proof (occurs_at_bound _ _ _ Ho Hb) as Hi.
  apply search_complete; [exact Hb|]. split.
  - apply occurs_at_app_l; assumption.
  - intros i' Hi' Ho'. apply (Hlow i' Hi').
    apply (occurs_at_app_l dat tail b i'); [lia|exact Ho'].
Qed.

Lemma search_append_stable_witness :
  search ([x00; x13; x37] ++ [x13; x37; x00]) [x13; x37] = Ret (1, None).
Proof.
  apply (search_append_stable [x00; x13; x37] [x13; x37; x00] [x13; x37] 1);
    [discriminate|vm_compute; reflexivity].
Defined.

(** X9: a pattern written after a prefix that does not hold the pattern's
    first byte is found at the length of that prefix, whatever follows. *)
Theorem search_after_clean_prefix (pre tail : bytes) (x : Byte.byte) (rest : bytes) :
  x ∉ pre ->
  search (pre ++ (x :: rest) ++ tail) (x :: rest) = Ret (length pre, None).
Proof.
  intros Hx. apply search_complete; [discriminate|]. split.
  - unfold occurs_at. rewrite drop_app_length, take_app_length. reflexivity.
  - intros i' Hi' Ho. apply occurs_at_first_byte in Ho; [|discriminate].
    rewrite lookup_app_l in Ho by exact Hi'. apply Hx.
    apply list_elem_of_lookup. exists i'. exact Ho.
Qed.

Lemma search_after_clean_prefix_witness :
  search (replicate 1022 x00 ++ [x13; x37] ++ []) [x13; x37]
  = Ret (length (replicate 1022 x00), None).
Proof.
  apply (search_after_clean_prefix (replicate 1022 x00) [] x13 [x37]).
  intros Hin. apply elem_of_replicate in Hin as [Hin _]. discriminate Hin.
Defined.

(** X10: on a buffer of [n] equal bytes, a pattern of [m >= 1] of the same
    bytes is found at offset 0 when it fits, and makes the search panic when
    the buffer is not empty and shorter than the pattern. *)
Theorem search_constant_buffer (x : Byte.byte) (n m : nat) :
  0 < m ->
  (m <= n -> search (replicate n x) (replicate m x) = Ret (0, None)) /\
  (0 < n < m ->
   search (replicate n x) (replicate m x)
   = Panic (IndexOutOfRange (Z.of_nat n) (Z.of_nat n))).
Proof.
  intros Hm.
  assert (replicate m x <> []) as Hb by (destruct m; [lia|discriminate]).
  split.
  - intros Hn. apply search_complete; [exact Hb|]. split; [|intros; lia].
    apply occurs_at_lookup. intros j Hj. rewrite length_replicate in Hj.
    rewrite !lookup_replicate_2 by lia. reflexivity.
  - intros Hn.
    rewrite <- (length_replicate n x) at 2 3.
    apply (search_reads_past_end_general _ _ 0); [exact Hb| | |].
    + intros i Ho. apply occurs_at_bound in Ho; [|exact Hb].
      rewrite !length_replicate in Ho. lia.
    + rewrite length_replicate. lia.
    + split; [rewrite !length_replicate; lia|].
      intros j Hj. rewrite length_replicate in Hj.
      rewrite !lookup_replicate_2 by lia. reflexivity.
Qed.

Lemma search_constant_buffer_witness :
  search (replicate 4 x00) (replicate 2 x00) = Ret (0, None).
Proof.
  apply (proj1 (search_constant_buffer x00 4 2 ltac:(lia))). lia.
Defined.

(** * Further properties of the signature table and of decompression *)

(** X12: for every tag outside gzip, bzip2 and lzma the search for the
    compression signature panics on the table index before any file is
    read, also when the file does not exist. *)
Theorem findCompressionMagic_without_entry (w : OS) (k : KernelConfig) :
  ~ (0 <= compressionType k < 3)%Z ->
  findCompressionMagic w k = Panic (IndexOutOfRange (compressionType k) 3).
Proof.
  intros Ht. unfold findCompressionMagic, Magic.
  destruct (decide (0 <= compressionType k)%Z) as [Hk|Hk]; [|reflexivity].
  destruct (magic_table !! Z.to_nat (compressionType k)) as [m|] eqn:E; [|reflexivity].
  exfalso. apply lookup_lt_Some in E. simpl in E. lia.
Qed.

Lemma findCompressionMagic_without_entry_witness :
  findCompressionMagic example_os (mkKernelConfig "missing" "" KERNEL_COMPRESSION_TYPE_ZSTD)
  = Panic (IndexOutOfRange 6 3).
Proof.
  apply (findCompressionMagic_without_entry example_os
           (mkKernelConfig "missing" "" KERNEL_COMPRESSION_TYPE_ZSTD)).
  vm_compute. intros [_ Hlt]. discriminate Hlt.
Defined.

Section DecoderFurther.
Context `{Codecs}.

(** The ways [decompress] ends. *)
Lemma decompress_cases (w w1 : OS) (k k1 : KernelConfig) (err : option error) :
  decompress w k = (w1, k1, err) ->
  (exists e, mkdir_temp w = inr e /\ w1 = w /\ k1 = k /\
             err = Some (Wrap "error creating temporary directory" e)) \/
  (exists tmpdir, mkdir_temp w = inl tmpdir /\
     k1 = mkKernelConfig (path k) (tmpdir ++ "/vmlinux") (compressionType k) /\
     ((exists e, create_err w (tmpdir ++ "/vmlinux") = Some e /\ w1 = w /\
                 err = Some (Wrap "error opening decompressed file" e)) \/
      (create_err w (tmpdir ++ "/vmlinux") = None /\
       ((<[tmpdir ++ "/vmlinux" := []]> (files w) !! path k = None /\
         w1 = set_files w (<[tmpdir ++ "/vmlinux" := []]> (files w)) /\
         err = Some (Wrap "error opening kernel file" (PathError "open" (path k)))) \/
        (exists kernel,
           <[tmpdir ++ "/vmlinux" := []]> (files w) !! path k = Some kernel /\
           decompress_switch (set_files w (<[tmpdir ++ "/vmlinux" := []]> (files w)))
             k1 kernel = (w1, err)))))).
Proof.
  unfold decompress, os_Create, os_Open.
  destruct (mkdir_temp w) as [tmpdir|e]; [|intros [= <- <- <-]; left; eauto].
  cbn [pathDecompressed path].
  intros E. right. exists tmpdir. split; [reflexivity|].
  destruct (create_err w (tmpdir ++ "/vmlinux")) as [e|].
  - injection E as <- <- <-. split; [reflexivity|]. left. eauto.
  - cbn [files set_files] in E.
    destruct (<[tmpdir ++ "/vmlinux" := []]> (files w) !! path k) as [kernel|] eqn:Hk.
    + destruct (decompress_switch _ _ kernel) as [w2 err2] eqn:Hs.
      injection E as <- <- <-. split; [reflexivity|]. right. split; [reflexivity|].
      right. exists kernel. split; [reflexivity|exact Hs].
    + injection E as <- <- <-. split; [reflexivity|]. right. split; [reflexivity|].
      left. auto.
Qed.

(** What the [switch] leaves in the file system. *)
Lemma decompress_switch_frame (w w1 : OS) (k : KernelConfig) (kernel : bytes)
    (err : option error) :
  decompress_switch w k kernel = (w1, err) ->
  mkdir_temp w1 = mkdir_temp w /\ create_err w1 = create_err w /\
  forall p, p <> pathDecompressed k -> files w1 !! p = files w !! p.
Proof.
  unfold decompress_switch, io_Copy, os_Link.
  repeat case_decide;
    repeat match goal with
           | |- context [match ?x with _ => _ end] => destruct x
           end;
    intros [= <- _]; cbn [files mkdir_temp create_err set_files fst];
    (split; [reflexivity|]; split; [reflexivity|]);
    intros p Hp; try reflexivity; apply lookup_insert_ne; congruence.
Qed.

Lemma decompress_keeps (w w1 : OS) (k k1 : KernelConfig) (err : option error) :
  decompress w k = (w1, k1, err) ->
  path k1 = path k /\ compressionType k1 = compressionType k /\
  forall p, p <> pathDecompressed k1 -> files w1 !! p = files w !! p.
Proof.
  intros E. apply decompress_cases in E
    as [(e & _ & -> & -> & _)|(tmpdir & _ & -> & [(e & _ & -> & _)|(_ & [(_ & -> & _)|(kernel & _ & Hs)])])];
    cbn [path compressionType pathDecompressed]; (split; [reflexivity|]; split; [reflexivity|]);
    try (intros; reflexivity).
  - intros p Hp. cbn [files set_files]. apply lookup_insert_ne. congruence.
  - intros p Hp. apply decompress_switch_frame in Hs as (_ & _ & Hs).
    cbn [pathDecompressed] in Hs. rewrite (Hs p Hp).
    cbn [files set_files]. apply lookup_insert_ne. congruence.
Qed.

(** X13: [decompress] keeps the source path and the tag of the receiver,
    and changes no file other than the decompressed file it names. *)
Theorem decompress_frame (w w1 : OS) (k k1 : KernelConfig) (err : option error) :
  decompress w k = (w1, k1, err) ->
  path k1 = path k /\ compressionType k1 = compressionType k /\
  forall p, p <> pathDecompressed k1 -> files w1 !! p = files w !! p.
Proof. apply decompress_keeps. Qed.

(** [decompress] once the temporary file is created and the source opened. *)
Lemma decompress_setup_ok (w : OS) (k : KernelConfig) (tmpdir : string) (kernel : bytes) :
  mkdir_temp w = inl tmpdir ->
  create_err w (tmpdir ++ "/vmlinux") = None ->
  <[tmpdir ++ "/vmlinux" := []]> (files w) !! path k = Some kernel ->
  decompress w k
  = (let k1 := mkKernelConfig (path k) (tmpdir ++ "/vmlinux") (compressionType k) in
     let '(w1, err) :=
       decompress_switch (set_files w (<[tmpdir ++ "/vmlinux" := []]> (files w))) k1 kernel in
     (w1, k1, err)).
Proof.
  intros Hm Hc Hk. unfold decompress, os_Create, os_Open.
  rewrite Hm. cbn [pathDecompressed path]. rewrite Hc.
  cbn [files set_files]. rewrite Hk. reflexivity.
Qed.

(** X14: when the source cannot be opened, [decompress] returns the error of
    that step, and the empty temporary file it has created stays behind,
    named by the receiver. *)
Theorem decompress_source_missing (w : OS) (k : KernelConfig) (tmpdir : string) :
  mkdir_temp w = inl tmpdir ->
  create_err w (tmpdir ++ "/vmlinux") = None ->
  files w !! path k = None ->
  path k <> tmpdir ++ "/vmlinux" ->
  exists w1 k1,
    decompress w k
    = (w1, k1, Some (Wrap "error opening kernel file" (PathError "open" (path k)))) /\
    pathDecompressed k1 = tmpdir ++ "/vmlinux" /\
    files w1 !! pathDecompressed k1 = Some [].
Proof.
  intros Hm Hc Hk Hne. unfold decompress, os_Create, os_Open.
  rewrite Hm. cbn [pathDecompressed path]. rewrite Hc.
  cbn [files set_files]. rewrite lookup_insert_ne by congruence. rewrite Hk.
  eexists _, _. split; [reflexivity|]. split; [reflexivity|].
  cbn [files pathDecompressed]. apply lookup_insert_eq.
Qed.

(** X15: [decompress] never reports success on a partial output: when it
    returns no error for the tag gzip, bzip2, xz or zstd, the reader of that
    format was built on the bytes of the source, it ended without failure,
    and the decompressed file holds exactly the bytes it delivered. *)
Theorem decompress_success_complete (w w1 : OS) (k k1 : KernelConfig) :
  decompress w k = (w1, k1, None) ->
  compressionType k ∈ [KERNEL_COMPRESSION_TYPE_GZIP; KERNEL_COMPRESSION_TYPE_BZIP2;
                       KERNEL_COMPRESSION_TYPE_XZ; KERNEL_COMPRESSION_TYPE_ZSTD] ->
  exists tmpdir kernel r pre,
    mkdir_temp w = inl tmpdir /\
    pathDecompressed k1 = tmpdir ++ "/vmlinux" /\
    <[tmpdir ++ "/vmlinux" := []]> (files w) !! path k = Some kernel /\
    stream_reader kernel (compressionType k) r pre /\
    failure r = None /\
    files w1 !! pathDecompressed k1 = Some (delivered r).
Proof.
  intros E Ht. apply decompress_cases in E
    as [(e & _ & _ & _ & [=])|(tmpdir & Hm & -> & [(e & _ & _ & [=])|(_ & [(_ & _ & [=])|(kernel & Hk & Hs)])])].
  exists tmpdir, kernel. revert Hs.
  unfold decompress_switch, io_Copy.
  cbn [compressionType pathDecompressed files set_files].
  rewrite lookup_insert_eq. cbn [default].
  repeat (apply elem_of_cons in Ht as [Ht|Ht]);
    [..|apply elem_of_nil in Ht; contradiction];
    rewrite Ht; tag_cases.
  - destruct (gzip_NewReader kernel) as [r|e] eqn:Hr; [|discriminate].
    destruct (failure r) eqn:Hf; [discriminate|]. intros [= <-].
    exists r, "error decompressing gzip".
    split; [exact Hm|]. split; [reflexivity|]. split; [exact Hk|].
    split; [apply gzip_stream; exact Hr|]. split; [exact Hf|].
    cbn [files set_files pathDecompressed]. apply lookup_insert_eq.
  - destruct (failure (bzip2_NewReader kernel)) eqn:Hf; [discriminate|]. intros [= <-].
    exists (bzip2_NewReader kernel), "error decompressing bzip2".
    split; [exact Hm|]. split; [reflexivity|]. split; [exact Hk|].
    split; [apply bzip2_stream|]. split; [exact Hf|].
    cbn [files set_files pathDecompressed]. apply lookup_insert_eq.
  - destruct (xz_NewReader kernel) as [r|e] eqn:Hr; [|discriminate].
    destruct (failure r) eqn:Hf; [discriminate|]. intros [= <-].
    exists r, "error decompressing xz".
    split; [exact Hm|]. split; [reflexivity|]. split; [exact Hk|].
    split; [apply xz_stream; exact Hr|]. split; [exact Hf|].
    cbn [files set_files pathDecompressed]. apply lookup_insert_eq.
  - destruct (zstd_NewReader kernel) as [r|e] eqn:Hr; [|discriminate].
    destruct (failure r) eqn:Hf; [discriminate|]. intros [= <-].
    exists r, "error decompressing zstd".
    split; [exact Hm|]. split; [reflexivity|]. split; [exact Hk|].
    split; [apply zstd_stream; exact Hr|]. split; [exact Hf|].
    cbn [files set_files pathDecompressed]. apply lookup_insert_eq.
Qed.

(** X16: when gzip, xz or zstd rejects the start of the source, [decompress]
    returns that error with the prefix of the format and leaves the
    decompressed file empty. *)
Theorem decompress_reader_rejected
    (w : OS) (k : KernelConfig) (tmpdir : string) (kernel : bytes)
    (e : error) (pre : string) :
  mkdir_temp w = inl tmpdir ->
  create_err w (tmpdir ++ "/vmlinux") = None ->
  <[tmpdir ++ "/vmlinux" := []]> (files w) !! path k = Some kernel ->
  (compressionType k = KERNEL_COMPRESSION_TYPE_GZIP /\
   gzip_NewReader kernel = inr e /\ pre = "error creating gzip reader") \/
  (compressionType k = KERNEL_COMPRESSION_TYPE_XZ /\
   xz_NewReader kernel = inr e /\ pre = "error creating xz reader") \/
  (compressionType k = KERNEL_COMPRESSION_TYPE_ZSTD /\
   zstd_NewReader kernel = inr e /\ pre = "error creating zstd reader") ->
  exists w1 k1,
    decompress w k = (w1, k1, Some (Wrap pre e)) /\
    pathDecompressed k1 = tmpdir ++ "/vmlinux" /\
    files w1 !! pathDecompressed k1 = Some [].
Proof.
  intros Hm Hc Hk Hr. rewrite (decompress_setup_ok w k tmpdir kernel Hm Hc Hk).
  cbn zeta. unfold decompress_switch. cbn [compressionType pathDecompressed].
  destruct Hr as [(-> & Hr & ->)|[(-> & Hr & ->)|(-> & Hr & ->)]];
    tag_cases; rewrite Hr;
    (eexists _, _; split; [reflexivity|]; split; [reflexivity|];
     cbn [files set_files pathDecompressed]; apply lookup_insert_eq).
Qed.

Lemma decompress_switch_out_of_range (w : OS) (k : KernelConfig) (kernel : bytes) :
  (compressionType k < 0 \/ 8 < compressionType k)%Z ->
  decompress_switch w k kernel = (w, Some (UnsupportedCompression (compressionType k))).
Proof.
  intros Ht. unfold decompress_switch.
  repeat (case_decide; [exfalso; unfold_tags; lia|]).
  reflexivity.
Qed.

Lemma decompress_switch_in_range (w w1 : OS) (k : KernelConfig) (kernel : bytes)
    (t : KernelCompressionType) :
  (0 <= compressionType k <= 8)%Z ->
  decompress_switch w k kernel <> (w1, Some (UnsupportedCompression t)).
Proof.
  intros Ht. unfold decompress_switch, io_Copy.
  repeat (case_decide;
          [repeat match goal with
                  | |- context [match ?x with _ => _ end] => destruct x
                  end;
           try destruct (failure _); cbn; congruence|]).
  exfalso. unfold_tags. lia.
Qed.

(** X17: once the temporary file is created and the source opened,
    [decompress] returns the unsupported-compression error exactly for the
    tags that are none of the nine declared constants. *)
Theorem decompress_unsupported_iff
    (w : OS) (k : KernelConfig) (tmpdir : string) (kernel : bytes) :
  mkdir_temp w = inl tmpdir ->
  create_err w (tmpdir ++ "/vmlinux") = None ->
  <[tmpdir ++ "/vmlinux" := []]> (files w) !! path k = Some kernel ->
  (exists w1 k1 t, decompress w k = (w1, k1, Some (UnsupportedCompression t)))
  <-> (compressionType k < 0 \/ 8 < compressionType k)%Z.
Proof.
  intros Hm Hc Hk. rewrite (decompress_setup_ok w k tmpdir kernel Hm Hc Hk). cbn zeta.
  split.
  - intros (w1 & k1 & t & E).
    destruct (decide (0 <= compressionType k <= 8)%Z) as [Hin|Hout]; [|lia].
    exfalso.
    destruct (decompress_switch _ _ kernel) as [w2 err] eqn:Hs.
    injection E as -> _ ->.
    revert Hs. apply decompress_switch_in_range. exact Hin.
  - intros Ht. rewrite decompress_switch_out_of_range by exact Ht.
    eexists _, _, _. reflexivity.
Qed.

(** With a tag that has no decoder, a successful [decompress] leaves the
    decompressed file empty. *)
Lemma decompress_no_decoder_empty (w w1 : OS) (k k1 : KernelConfig) :
  compressionType k ∈ [KERNEL_COMPRESSION_TYPE_NONE; KERNEL_COMPRESSION_TYPE_UNKNOWN;
                       KERNEL_COMPRESSION_TYPE_LZMA; KERNEL_COMPRESSION_TYPE_LZO;
                       KERNEL_COMPRESSION_TYPE_LZ4] ->
  decompress w k = (w1, k1, None) ->
  files w1 !! pathDecompressed k1 = Some [].
Proof.
  intros Ht E. apply decompress_cases in E
    as [(e & _ & _ & _ & [=])|(tmpdir & _ & -> & [(e & _ & _ & [=])|(_ & [(_ & _ & [=])|(kernel & Hk & Hs)])])].
  cbn [pathDecompressed]. revert Hs.
  unfold decompress_switch, os_Link. cbn [compressionType pathDecompressed path files set_files].
  rewrite lookup_insert_eq.
  repeat (apply elem_of_cons in Ht as [->|Ht]);
    [..|apply elem_of_nil in Ht; contradiction];
    tag_cases; try rewrite Hk; cbn [fst];
    intros [= <-]; cbn [files]; apply lookup_insert_eq.
Qed.

(** X18: with the tag none the source is not linked to the decompressed
    path: the link is made after the decompressed file was created, so it
    fails, its error is dropped, and [decompress] returns no error with the
    decompressed file empty, whatever the source holds. *)
Theorem decompress_none_not_linked
    (w : OS) (k : KernelConfig) (tmpdir : string) (kernel : bytes) :
  compressionType k = KERNEL_COMPRESSION_TYPE_NONE ->
  mkdir_temp w = inl tmpdir ->
  create_err w (tmpdir ++ "/vmlinux") = None ->
  <[tmpdir ++ "/vmlinux" := []]> (files w) !! path k = Some kernel ->
  exists w1 k1,
    decompress w k = (w1, k1, None) /\
    pathDecompressed k1 = tmpdir ++ "/vmlinux" /\
    files w1 !! pathDecompressed k1 = Some [] /\
    files w1 !! path k = Some kernel.
Proof.
  intros Ht Hm Hc Hk. rewrite (decompress_setup_ok w k tmpdir kernel Hm Hc Hk).
  cbn zeta. unfold decompress_switch, os_Link.
  cbn [compressionType pathDecompressed path files set_files].
  rewrite Ht, lookup_insert_eq, Hk. tag_cases. cbn [fst].
  eexists _, _. split; [reflexivity|]. split; [reflexivity|].
  cbn [files set_files pathDecompressed]. split; [apply lookup_insert_eq|exact Hk].
Qed.

(** ** Further properties of the extraction *)

(** The conditions under which [ParseKernelConfig] returns a map. *)
Lemma ParseKernelConfig_success_conditions
    (w w1 : OS) (k k1 : KernelConfig) (m : KernelConfigMap) (e : option error) :
  ParseKernelConfig w k = Ret (w1, k1, (Some m, e)) <->
  m = ∅ /\ e = None /\ decompress w k = (w1, k1, None) /\
  exists src plain o r,
    files w1 !! path k = Some src /\
    first_occurrence src KERNEL_CONFIG_MAGIC o /\
    files w1 !! pathDecompressed k1 = Some plain /\
    o + 8 <= length plain /\
    is_Some (files w1 !! "config") /\
    gzip_NewReader (drop (o + 8) plain) = inl r.
Proof.
  unfold ParseKernelConfig, findKernelConfigMagic, SearchBytes, os_ReadFile,
    slice_from, os_Open.
  destruct (decompress w k) as [[w2 k2] [e2|]] eqn:Hd.
  { split; [discriminate|]. intros (_ & _ & [=] & _). }
  rewrite (decompress_path _ _ _ _ _ Hd).
  split.
  - destruct (files w2 !! path k) as [src|] eqn:Hsrc; cbn [mbind go_bind]; [|discriminate].
    destruct (search src KERNEL_CONFIG_MAGIC) as [[o [e3|]]|p] eqn:Hs;
      cbn [mbind go_bind]; [discriminate| |discriminate].
    destruct (files w2 !! pathDecompressed k2) as [plain|] eqn:Hp; [|discriminate].
    destruct (decide (o + 8 <= length plain)) as [Hlen|]; cbn [mbind go_bind];
      [|discriminate].
    destruct (files w2 !! "config") as [out|] eqn:Hout; [|discriminate].
    destruct (gzip_NewReader (drop (o + 8) plain)) as [r|e3] eqn:Hr; [|discriminate].
    intros [= <- <- <- <-]. split; [reflexivity|]. split; [reflexivity|].
    split; [reflexivity|].
    exists src, plain, o, r. split; [exact Hsrc|]. split.
    { apply search_sound; [discriminate|exact Hs]. }
    split; [exact Hp|]. split; [exact Hlen|]. split; [eauto|exact Hr].
  - intros (-> & -> & [= <- <-] & src & plain & o & r & Hsrc & Ho & Hp & Hlen & [out Hout] & Hr).
    rewrite Hsrc.
    rewrite (search_complete src KERNEL_CONFIG_MAGIC o ltac:(discriminate) Ho).
    cbn [mbind go_bind]. rewrite Hp.
    rewrite decide_True by exact Hlen. cbn [mbind go_bind].
    rewrite Hout, Hr. reflexivity.
Qed.

(** X19: [ParseKernelConfig] returns a map exactly when: [decompress]
    succeeds; the marker occurs in the file at the source path, first at
    some offset [o]; the decompressed file has at least [o + 8] bytes; a
    file [config] can be opened; and the gzip header of the decompressed
    bytes from [o + 8] on is accepted.  The map is then empty. *)
Theorem ParseKernelConfig_success_iff
    (w w1 : OS) (k k1 : KernelConfig) (m : KernelConfigMap) (e : option error) :
  ParseKernelConfig w k = Ret (w1, k1, (Some m, e)) <->
  m = ∅ /\ e = None /\ decompress w k = (w1, k1, None) /\
  exists src plain o r,
    files w1 !! path k = Some src /\
    first_occurrence src KERNEL_CONFIG_MAGIC o /\
    files w1 !! pathDecompressed k1 = Some plain /\
    o + 8 <= length plain /\
    is_Some (files w1 !! "config") /\
    gzip_NewReader (drop (o + 8) plain) = inl r.
Proof. apply ParseKernelConfig_success_conditions. Qed.

Lemma decompress_without_stream_empty (w w1 : OS) (k k1 : KernelConfig) :
  compressionType k ∉ [KERNEL_COMPRESSION_TYPE_GZIP; KERNEL_COMPRESSION_TYPE_BZIP2;
                       KERNEL_COMPRESSION_TYPE_XZ; KERNEL_COMPRESSION_TYPE_ZSTD] ->
  decompress w k = (w1, k1, None) ->
  files w1 !! pathDecompressed k1 = Some [].
Proof.
  intros Ht E.
  destruct (decide (0 <= compressionType k <= 8)%Z) as [Hin|Hout].
  - apply (decompress_no_decoder_empty w w1 k k1); [|exact E].
    rewrite !not_elem_of_cons in Ht. destruct Ht as (H0 & H1 & H3 & H6 & _).
    rewrite !elem_of_cons. unfold_tags. lia.
  - exfalso. apply decompress_cases in E
      as [(e & _ & _ & _ & [=])|(tmpdir & _ & -> & [(e & _ & _ & [=])|(_ & [(_ & _ & [=])|(kernel & Hk & Hs)])])].
    rewrite decompress_switch_out_of_range in Hs by (cbn [compressionType]; lia).
    discriminate Hs.
Qed.

(** X20: [ParseKernelConfig] returns a map only for the tags gzip, bzip2, xz
    and zstd: for every other tag it ends with an error or a panic, since the
    decompressed file is then empty or [decompress] fails. *)
Theorem ParseKernelConfig_needs_stream_tag
    (w w1 : OS) (k k1 : KernelConfig) (m : KernelConfigMap) (e : option error) :
  ParseKernelConfig w k = Ret (w1, k1, (Some m, e)) ->
  compressionType k ∈ [KERNEL_COMPRESSION_TYPE_GZIP; KERNEL_COMPRESSION_TYPE_BZIP2;
                       KERNEL_COMPRESSION_TYPE_XZ; KERNEL_COMPRESSION_TYPE_ZSTD].
Proof.
  intros E. apply ParseKernelConfig_success_conditions in E
    as (_ & _ & Hd & src & plain & o & r & _ & _ & Hp & Hlen & _).
  destruct (decide (compressionType k ∈
    [KERNEL_COMPRESSION_TYPE_GZIP; KERNEL_COMPRESSION_TYPE_BZIP2;
     KERNEL_COMPRESSION_TYPE_XZ; KERNEL_COMPRESSION_TYPE_ZSTD])) as [Hin|Hout];
    [exact Hin|].
  exfalso. rewrite (decompress_without_stream_empty w w1 k k1 Hout Hd) in Hp.
  injection Hp as <-. simpl in Hlen. lia.
Qed.

(** X21: when the marker is found in the source at offset [o] and the
    decompressed file is shorter than [o + 8] bytes, the slice of the
    decompressed bytes panics. *)
Theorem ParseKernelConfig_slice_panic
    (w w1 : OS) (k k1 : KernelConfig) (src plain : bytes) (o : nat) :
  decompress w k = (w1, k1, None) ->
  files w1 !! path k = Some src ->
  first_occurrence src KERNEL_CONFIG_MAGIC o ->
  files w1 !! pathDecompressed k1 = Some plain ->
  length plain < o + 8 ->
  ParseKernelConfig w k
  = Panic (SliceOutOfRange (Z.of_nat (o + 8)) (Z.of_nat (length plain))).
Proof.
  intros Hd Hsrc Ho Hp Hlen.
  unfold ParseKernelConfig, findKernelConfigMagic, SearchBytes, os_ReadFile, slice_from.
  rewrite Hd, (decompress_path _ _ _ _ _ Hd), Hsrc.
  rewrite (search_complete src KERNEL_CONFIG_MAGIC o ltac:(discriminate) Ho).
  cbn [mbind go_bind]. rewrite Hp. rewrite decide_False by lia. reflexivity.
Qed.

(** The state [ParseKernelConfig] returns is the one [decompress] left. *)
Lemma ParseKernelConfig_state
    (w w1 : OS) (k k1 : KernelConfig) (r : option KernelConfigMap * option error) :
  ParseKernelConfig w k = Ret (w1, k1, r) -> fst (decompress w k) = (w1, k1).
Proof.
  unfold ParseKernelConfig, os_Open.
  destruct (decompress w k) as [[w2 k2] [e2|]]; cbn [fst]; [congruence|].
  destruct (findKernelConfigMagic w2 k2) as [[o [e3|]]|p]; cbn [mbind go_bind];
    [congruence| |discriminate].
  destruct (os_ReadFile w2 (pathDecompressed k2)) as [plain [e3|]]; [congruence|].
  destruct (slice_from plain (o + 8)) as [buf|p]; cbn [mbind go_bind]; [|discriminate].
  destruct (files w2 !! "config") as [out|]; [|congruence].
  destruct (gzip_NewReader buf) as [rd|e3]; congruence.
Qed.

(** X22: whatever [ParseKernelConfig] returns, it is either a map with no
    error or no map with an error that names the failed step; and the file
    system and the receiver are those [decompress] left. *)
Theorem ParseKernelConfig_result_shape
    (w w1 : OS) (k k1 : KernelConfig) (m : option KernelConfigMap) (e : option error) :
  ParseKernelConfig w k = Ret (w1, k1, (m, e)) ->
  fst (decompress w k) = (w1, k1) /\
  ((m = Some ∅ /\ e = None) \/
   (m = None /\ exists pre inner,
      e = Some (Wrap pre inner) /\
      pre ∈ ["error decompressing kernel config";
             "error finding magic string in kernel config";
             "error reading kernel config";
             "error opening config file";
             "error creating gzip reader"])).
Proof.
  unfold ParseKernelConfig, os_Open.
  destruct (decompress w k) as [[w2 k2] [e2|]]; cbn [fst].
  { intros [= <- <- <- <-]. split; [reflexivity|]. right. split; [reflexivity|].
    eexists _, _. split; [reflexivity|]. set_solver. }
  destruct (findKernelConfigMagic w2 k2) as [[o [e3|]]|p]; cbn [mbind go_bind];
    [| |discriminate].
  { intros [= <- <- <- <-]. split; [reflexivity|]. right. split; [reflexivity|].
    eexists _, _. split; [reflexivity|]. set_solver. }
  destruct (os_ReadFile w2 (pathDecompressed k2)) as [plain [e3|]].
  { intros [= <- <- <- <-]. split; [reflexivity|]. right. split; [reflexivity|].
    eexists _, _. split; [reflexivity|]. set_solver. }
  destruct (slice_from plain (o + 8)) as [buf|p]; cbn [mbind go_bind]; [|discriminate].
  destruct (files w2 !! "config") as [out|].
  - destruct (gzip_NewReader buf) as [r|e3].
    + intros [= <- <- <- <-]. split; [reflexivity|]. left. auto.
    + intros [= <- <- <- <-]. split; [reflexivity|]. right. split; [reflexivity|].
      eexists _, _. split; [reflexivity|]. set_solver.
  - intros [= <- <- <- <-]. split; [reflexivity|]. right. split; [reflexivity|].
    eexists _, _. split; [reflexivity|]. set_solver.
Qed.

Lemma string_length_append (s1 s2 : string) :
  String.length (s1 ++ s2) = String.length s1 + String.length s2.
Proof.
  induction s1 as [|a s1 IH]; [reflexivity|].
  change (S (String.length (s1 ++ s2)) = S (String.length s1 + String.length s2)).
  rewrite IH. reflexivity.
Qed.

Lemma tmp_path_not_config (tmpdir : string) : tmpdir ++ "/vmlinux" <> "config".
Proof.
  intros E. apply (f_equal String.length) in E.
  rewrite string_length_append in E. cbn [String.length] in E. lia.
Qed.

(** X23: [ParseKernelConfig] writes nothing but the decompressed file: every
    other file, and the file [config] in particular, holds afterwards what
    it held before. *)
Theorem ParseKernelConfig_frame
    (w w1 : OS) (k k1 : KernelConfig) (r : option KernelConfigMap * option error) :
  ParseKernelConfig w k = Ret (w1, k1, r) ->
  (forall p, p <> pathDecompressed k1 -> files w1 !! p = files w !! p) /\
  files w1 !! "config" = files w !! "config".
Proof.
  intros E. apply ParseKernelConfig_state in E.
  destruct (decompress w k) as [[w2 k2] err] eqn:Hd. cbn [fst] in E.
  injection E as -> ->.
  pose proof (decompress_keeps _ _ _ _ _ Hd) as (_ & _ & Hfr).
  split; [exact Hfr|].
  apply decompress_cases in Hd
    as [(e' & _ & -> & _)|(tmpdir & _ & -> & _)]; [reflexivity|].
  apply Hfr. cbn [pathDecompressed]. intros E. symmetry in E.
  exact (tmp_path_not_config tmpdir E).
Qed.


(** X25: when the file at the source path holds no marker but ends in a
    non-empty proper prefix of it, the marker search reads past the end of
    the file and [ParseKernelConfig] panics. *)
Theorem ParseKernelConfig_marker_cut_panics
    (w w1 : OS) (k k1 : KernelConfig) (src : bytes) (i : nat) :
  decompress w k = (w1, k1, None) ->
  files w1 !! path k = Some src ->
  (forall i', ~ occurs_at src KERNEL_CONFIG_MAGIC i') ->
  i < length src -> overhang src KERNEL_CONFIG_MAGIC i ->
  ParseKernelConfig w k
  = Panic (IndexOutOfRange (Z.of_nat (length src)) (Z.of_nat (length src))).
Proof.
  intros Hd Hsrc Hno Hi Hv.
  unfold ParseKernelConfig, findKernelConfigMagic, SearchBytes, os_ReadFile.
  rewrite Hd, (decompress_path _ _ _ _ _ Hd), Hsrc.
  rewrite (search_reads_past_end_general src KERNEL_CONFIG_MAGIC i
             ltac:(discriminate) Hno Hi Hv).
  reflexivity.
Qed.

(** X26: on the map [ParseKernelConfig] returns, [Get] fails for every key
    with the key-not-found error. *)
Theorem ParseKernelConfig_then_Get
    (w w1 : OS) (k k1 : KernelConfig) (m : KernelConfigMap) (e : option error)
    (key : string) :
  ParseKernelConfig w k = Ret (w1, k1, (Some m, e)) ->
  Get m key = (m, ("", Some (KeyNotFound key))).
Proof.
  intros E. apply ParseKernelConfig_success_conditions in E as (-> & _).
  unfold Get. rewrite lookup_empty. reflexivity.
Qed.

End DecoderFurther.

(** *** The theorems of this part on the example file system *)

Lemma decompress_frame_witness :
  let k := mkKernelConfig "vmlinuz" "" KERNEL_COMPRESSION_TYPE_GZIP in
  let r := @decompress example_codecs example_os k in
  path (snd (fst r)) = path k /\
  compressionType (snd (fst r)) = compressionType k /\
  forall p, p <> pathDecompressed (snd (fst r)) ->
            files (fst (fst r)) !! p = files example_os !! p.
Proof.
  intros k r.
  apply (@decompress_frame example_codecs example_os (fst (fst r)) k (snd (fst r)) (snd r)).
  vm_compute. reflexivity.
Defined.

Lemma decompress_source_missing_witness :
  exists w1 k1,
    @decompress example_codecs example_os
      (mkKernelConfig "missing" "" KERNEL_COMPRESSION_TYPE_GZIP)
    = (w1, k1, Some (Wrap "error opening kernel file" (PathError "open" "missing"))) /\
    pathDecompressed k1 = "/tmp/ikconfig1" ++ "/vmlinux" /\
    files w1 !! pathDecompressed k1 = Some [].
Proof.
  apply (@decompress_source_missing example_codecs example_os
           (mkKernelConfig "missing" "" KERNEL_COMPRESSION_TYPE_GZIP) "/tmp/ikconfig1").
  - reflexivity.
  - reflexivity.
  - vm_compute. reflexivity.
  - discriminate.
Defined.

Lemma decompress_success_complete_witness :
  exists tmpdir kernel r pre,
    mkdir_temp example_os = inl tmpdir /\
    "/tmp/ikconfig1/vmlinux" = tmpdir ++ "/vmlinux" /\
    <[tmpdir ++ "/vmlinux" := []]> (files example_os) !! "vmlinuz" = Some kernel /\
    @stream_reader example_codecs kernel KERNEL_COMPRESSION_TYPE_GZIP r pre /\
    failure r = None /\
    files (fst (fst (@decompress example_codecs example_os
                       (mkKernelConfig "vmlinuz" "" KERNEL_COMPRESSION_TYPE_GZIP))))
      !! "/tmp/ikconfig1/vmlinux" = Some (delivered r).
Proof.
  pose (k := mkKernelConfig "vmlinuz" "" KERNEL_COMPRESSION_TYPE_GZIP).
  pose (r := fst (@decompress example_codecs example_os k)).
  apply (@decompress_success_complete example_codecs example_os (fst r) k (snd r)).
  - vm_compute. reflexivity.
  - apply elem_of_cons. left. reflexivity.
Defined.

Lemma decompress_reader_rejected_witness :
  exists w1 k1,
    @decompress example_codecs example_os
      (mkKernelConfig "config" "" KERNEL_COMPRESSION_TYPE_GZIP)
    = (w1, k1, Some (Wrap "error creating gzip reader" (StreamError "gzip: invalid header"))) /\
    pathDecompressed k1 = "/tmp/ikconfig1" ++ "/vmlinux" /\
    files w1 !! pathDecompressed k1 = Some [].
Proof.
  apply (@decompress_reader_rejected example_codecs example_os
           (mkKernelConfig "config" "" KERNEL_COMPRESSION_TYPE_GZIP) "/tmp/ikconfig1" []).
  - reflexivity.
  - reflexivity.
  - vm_compute. reflexivity.
  - left. split; [reflexivity|]. split; [vm_compute; reflexivity|reflexivity].
Defined.

Lemma decompress_unsupported_iff_witness :
  exists w1 k1 t,
    @decompress example_codecs example_os (mkKernelConfig "vmlinuz" "" 9)
    = (w1, k1, Some (UnsupportedCompression t)).
Proof.
  apply (@decompress_unsupported_iff example_codecs example_os
           (mkKernelConfig "vmlinuz" "" 9) "/tmp/ikconfig1" kernel_gz).
  - reflexivity.
  - reflexivity.
  - vm_compute. reflexivity.
  - right. simpl. lia.
Defined.

Lemma decompress_none_not_linked_witness :
  exists w1 k1,
    @decompress example_codecs example_os
      (mkKernelConfig "vmlinuz" "" KERNEL_COMPRESSION_TYPE_NONE) = (w1, k1, None) /\
    pathDecompressed k1 = "/tmp/ikconfig1" ++ "/vmlinux" /\
    files w1 !! pathDecompressed k1 = Some [] /\
    files w1 !! "vmlinuz" = Some kernel_gz.
Proof.
  apply (@decompress_none_not_linked example_codecs example_os
           (mkKernelConfig "vmlinuz" "" KERNEL_COMPRESSION_TYPE_NONE) "/tmp/ikconfig1"
           kernel_gz).
  - reflexivity.
  - reflexivity.
  - reflexivity.
  - vm_compute. reflexivity.
Defined.

Lemma ParseKernelConfig_needs_stream_tag_witness :
  KERNEL_COMPRESSION_TYPE_GZIP
  ∈ [KERNEL_COMPRESSION_TYPE_GZIP; KERNEL_COMPRESSION_TYPE_BZIP2;
     KERNEL_COMPRESSION_TYPE_XZ; KERNEL_COMPRESSION_TYPE_ZSTD].
Proof.
  pose (k := mkKernelConfig "vmlinuz.stored" "" KERNEL_COMPRESSION_TYPE_GZIP).
  pose (r := fst (@decompress example_codecs example_os k)).
  apply (@ParseKernelConfig_needs_stream_tag example_codecs example_os (fst r) k (snd r)
           ∅ None).
  vm_compute. reflexivity.
Defined.

(** With the tag none on the stored image: the marker is found at offset 15
    of the source and the decompressed file is empty. *)
Lemma ParseKernelConfig_slice_panic_witness :
  @ParseKernelConfig example_codecs example_os
    (mkKernelConfig "vmlinuz.stored" "" KERNEL_COMPRESSION_TYPE_NONE)
  = Panic (SliceOutOfRange (Z.of_nat (15 + 8)) (Z.of_nat (length (@nil Byte.byte)))).
Proof.
  pose (k := mkKernelConfig "vmlinuz.stored" "" KERNEL_COMPRESSION_TYPE_NONE).
  pose (r := fst (@decompress example_codecs example_os k)).
  apply (@ParseKernelConfig_slice_panic example_codecs example_os (fst r) k (snd r)
           kernel_stored [] 15).
  - vm_compute. reflexivity.
  - vm_compute. reflexivity.
  - apply search_sound; [discriminate|vm_compute; reflexivity].
  - vm_compute. reflexivity.
  - simpl. lia.
Defined.

Lemma ParseKernelConfig_result_shape_witness :
  let k := mkKernelConfig "vmlinuz" "" KERNEL_COMPRESSION_TYPE_GZIP in
  let r := fst (@decompress example_codecs example_os k) in
  let e := Some (Wrap "error finding magic string in kernel config"
                   (MagicNotFoundErr "magic string not found" KERNEL_CONFIG_MAGIC)) in
  fst (@decompress example_codecs example_os k) = (fst r, snd r) /\
  ((None = Some (∅ : KernelConfigMap) /\ e = None) \/
   ((None : option KernelConfigMap) = None /\ exists pre inner,
      e = Some (Wrap pre inner) /\
      pre ∈ ["error decompressing kernel config";
             "error finding magic string in kernel config";
             "error reading kernel config";
             "error opening config file";
             "error creating gzip reader"])).
Proof.
  intros k r e.
  apply (@ParseKernelConfig_result_shape example_codecs example_os (fst r) k (snd r) None e).
  vm_compute. reflexivity.
Defined.

Lemma ParseKernelConfig_frame_witness :
  let k := mkKernelConfig "vmlinuz.stored" "" KERNEL_COMPRESSION_TYPE_GZIP in
  let r := fst (@decompress example_codecs example_os k) in
  (forall p, p <> pathDecompressed (snd r) -> files (fst r) !! p = files example_os !! p) /\
  files (fst r) !! "config" = files example_os !! "config".
Proof.
  intros k r.
  apply (@ParseKernelConfig_frame example_codecs example_os (fst r) k (snd r)
           (Some ∅, None)).
  vm_compute. reflexivity.
Defined.


(** A source that ends in the first two bytes of the marker. *)
Lemma ParseKernelConfig_marker_cut_panics_witness :
  let w := mkOS {["cut.bin" := [x00; x49; x4b]]} (inl "/tmp/ikconfig1") (fun _ => None) in
  @ParseKernelConfig example_codecs w
    (mkKernelConfig "cut.bin" "" KERNEL_COMPRESSION_TYPE_NONE)
  = Panic (IndexOutOfRange (Z.of_nat (length [x00; x49; x4b]))
             (Z.of_nat (length [x00; x49; x4b]))).
Proof.
  intros w.
  pose (k := mkKernelConfig "cut.bin" "" KERNEL_COMPRESSION_TYPE_NONE).
  pose (r := fst (@decompress example_codecs w k)).
  apply (@ParseKernelConfig_marker_cut_panics example_codecs w (fst r) k (snd r)
           [x00; x49; x4b] 1).
  - vm_compute. reflexivity.
  - vm_compute. reflexivity.
  - intros i' Ho. apply occurs_at_bound in Ho; [simpl in Ho; lia|discriminate].
  - simpl. lia.
  - split; [simpl; lia|]. intros j Hj. simpl in Hj.
    destruct j as [|[|j]]; [reflexivity|reflexivity|lia].
Defined.

Lemma ParseKernelConfig_then_Get_witness :
  Get (∅ : KernelConfigMap) "CONFIG_SMP" = (∅, ("", Some (KeyNotFound "CONFIG_SMP"))).
Proof.
  pose (k := mkKernelConfig "vmlinuz.stored" "" KERNEL_COMPRESSION_TYPE_GZIP).
  pose (r := fst (@decompress example_codecs example_os k)).
  apply (@ParseKernelConfig_then_Get example_codecs example_os (fst r) k (snd r)
           ∅ None "CONFIG_SMP").
  vm_compute. reflexivity.
Defined.

(** * The message of the not-found error *)

Lemma string_app_cons (a : Ascii.ascii) (s t : string) :
  String a s ++ t = String a (s ++ t).
Proof. reflexivity. Qed.

Lemma string_app_assoc (s t u : string) : (s ++ t) ++ u = s ++ (t ++ u).
Proof.
  induction s as [|a s IH]; [reflexivity|].
  rewrite !string_app_cons, IH. reflexivity.
Qed.

(** The decimal form of a byte is a non-empty string of digits that reads
    back as the byte. *)
Lemma fmt_byte_digits (x : Byte.byte) :
  all_digits (fmt_byte x) = true /\ fmt_byte x <> "" /\
  parse_dec (fmt_byte x) 0 = Byte.to_N x.
Proof. destruct x; (split; [reflexivity|split; [discriminate|reflexivity]]). Qed.

Lemma fmt_byte_inj (x y : Byte.byte) : fmt_byte x = fmt_byte y -> x = y.
Proof.
  intros E.
  destruct (fmt_byte_digits x) as (_ & _ & Hx), (fmt_byte_digits y) as (_ & _ & Hy).
  rewrite E, Hy in Hx.
  pose proof (Byte.of_to_N x) as Ex. rewrite <- Hx, Byte.of_to_N in Ex. congruence.
Qed.

(** A string of digits followed by a character that is no digit is cut in
    one way only. *)
Lemma digit_prefix_unique (d1 d2 : string) (c1 c2 : Ascii.ascii) (r1 r2 : string) :
  all_digits d1 = true -> all_digits d2 = true ->
  is_digit c1 = false -> is_digit c2 = false ->
  d1 ++ String c1 r1 = d2 ++ String c2 r2 ->
  d1 = d2 /\ String c1 r1 = String c2 r2.
Proof.
  revert d2. induction d1 as [|a d1 IH]; intros [|b d2] H1 H2 Hc1 Hc2 E.
  - split; [reflexivity|exact E].
  - exfalso. rewrite string_app_cons in E. injection E as -> _.
    cbn [all_digits] in H2. apply andb_prop in H2 as [H2 _]. congruence.
  - exfalso. rewrite string_app_cons in E. injection E as <- _.
    cbn [all_digits] in H1. apply andb_prop in H1 as [H1 _]. congruence.
  - rewrite !string_app_cons in E. injection E as -> E.
    cbn [all_digits] in H1, H2.
    apply andb_prop in H1 as [_ H1]. apply andb_prop in H2 as [_ H2].
    destruct (IH d2 H1 H2 Hc1 Hc2 E) as [-> E']. split; [reflexivity|exact E'].
Qed.

(** What follows the first byte in the bracketed list. *)
Lemma fmt_join_cons_app (x : Byte.byte) (l : bytes) (r : string) :
  fmt_join (x :: l) ++ String "]"%char r
  = fmt_byte x ++ match l with
                  | [] => String "]"%char r
                  | _ :: _ => String " "%char (fmt_join l ++ String "]"%char r)
                  end.
Proof.
  destruct l as [|y l]; [reflexivity|].
  change (fmt_join (x :: y :: l)) with (fmt_byte x ++ " " ++ fmt_join (y :: l)).
  rewrite string_app_assoc. reflexivity.
Qed.

Lemma fmt_join_inj (l1 l2 : bytes) (r1 r2 : string) :
  fmt_join l1 ++ String "]"%char r1 = fmt_join l2 ++ String "]"%char r2 ->
  l1 = l2 /\ r1 = r2.
Proof.
  revert l2. induction l1 as [|x l1 IH]; intros [|y l2] E.
  - injection E as ->. auto.
  - exfalso. rewrite fmt_join_cons_app in E.
    destruct (fmt_byte_digits y) as (Hd & Hne & _).
    destruct (fmt_byte y) as [|a s]; [congruence|].
    rewrite string_app_cons in E. injection E as <- _.
    cbn [all_digits] in Hd. apply andb_prop in Hd as [Hd _]. discriminate Hd.
  - exfalso. rewrite fmt_join_cons_app in E.
    destruct (fmt_byte_digits x) as (Hd & Hne & _).
    destruct (fmt_byte x) as [|a s]; [congruence|].
    rewrite string_app_cons in E. injection E as -> _.
    cbn [all_digits] in Hd. apply andb_prop in Hd as [Hd _]. discriminate Hd.
  - rewrite !fmt_join_cons_app in E.
    destruct (fmt_byte_digits x) as (Hx & _), (fmt_byte_digits y) as (Hy & _).
    destruct l1 as [|x' l1], l2 as [|y' l2];
      apply digit_prefix_unique in E as [Exy E]; try reflexivity; try assumption;
      apply fmt_byte_inj in Exy as ->.
    + injection E as ->. auto.
    + discriminate E.
    + discriminate E.
    + injection E as E. destruct (IH (y' :: l2) E) as [-> ->]. auto.
Qed.

(** X27: the messages of the not-found error for two patterns are equal only
    when the patterns are: the message tells which bytes were searched. *)
Theorem MagicNotFoundErr_Error_inj (magic1 magic2 : bytes) :
  MagicNotFoundErr_Error magic1 = MagicNotFoundErr_Error magic2 ->
  magic1 = magic2.
Proof.
  unfold MagicNotFoundErr_Error, fmt_bytes. intros E.
  apply (inj (String.append "magic string ")) in E.
  rewrite !string_app_cons in E. injection E as E.
  change ("" ++ fmt_join magic1 ++ "]") with (fmt_join magic1 ++ "]") in E.
  change ("" ++ fmt_join magic2 ++ "]") with (fmt_join magic2 ++ "]") in E.
  rewrite !string_app_assoc in E.
  apply fmt_join_inj in E as [E _]. exact E.
Qed.

Lemma MagicNotFoundErr_Error_inj_witness : [x13; x37] = [x13; x37].
Proof.
  apply (MagicNotFoundErr_Error_inj [x13; x37] [x13; x37]). reflexivity.
Defined.
